(** * FDALabelAnalyzer: schema discovery over drug-label JSON documents

    A shallow embedding of [src/LabelAnalyzer.py] and the properties of its
    walker ([_analyze_drug]), its markup merge ([_analyze_html_content]) and
    its report builder ([_generate_report], [_build_structure_tree]).

    Modelling choices, all taken from the source:
    - Python [str] is [string]; [len] is [String.length]; one [ascii] stands
      for one character of the text.
    - Python [int] counters and lengths are [nat] (they are never negative);
      JSON integers are [Z].
    - [self.field_stats] is a [defaultdict]: an insertion-ordered mapping
      whose lookup creates the default entry when the key is missing.  It is
      an association list in insertion order, because the report and the
      structure tree iterate it in that order.
    - a Python [set] of strings is the list of its distinct elements in the
      order they were first added; the order in which [list(s)] enumerates a
      set is not fixed by the language and is a parameter ([set_iter]).
    - [BeautifulSoup(html, 'html.parser')] is an external library: the parser
      is a parameter, and a parsed document is the pair of what the code asks
      of it (its stripped text, and its elements in document order).
    - the analyzer object is mutated in place and exceptions leave the
      mutations made so far: a state-and-error monad [M] whose failures keep
      the state. *)

From Stdlib Require Import List String Ascii Arith ZArith Lia Bool.
From Stdlib Require Import Permutation Sorted DecimalString.
Import ListNotations.

Set Warnings "-register-all".

Local Open Scope string_scope.
Local Open Scope list_scope.

Infix "+++" := String.append (right associativity, at level 60).

(** ** Strings as Python uses them *)

Module PyStr.

(** [s[:n]] *)
Fixpoint take (n : nat) (s : string) : string :=
  match n, s with
  | S n', String c s' => String c (take n' s')
  | _, _ => EmptyString
  end.

(** [str(n)] for a non-negative [int] *)
Definition of_nat (n : nat) : string := NilZero.string_of_uint (Nat.to_uint n).

(** [str(z)] for an [int] *)
Definition of_Z (z : Z) : string := NilZero.string_of_int (Z.to_int z).

(** [c in s] for a single character *)
Fixpoint mem_char (c : ascii) (s : string) : bool :=
  match s with
  | EmptyString => false
  | String d s' => Ascii.eqb c d || mem_char c s'
  end.

(** [needle in hay] *)
Fixpoint contains (needle hay : string) : bool :=
  String.prefix needle hay ||
  match hay with
  | EmptyString => false
  | String _ hay' => contains needle hay'
  end.

Definition lower_char (c : ascii) : ascii :=
  let n := nat_of_ascii c in
  if ((65 <=? n) && (n <=? 90))%nat then ascii_of_nat (n + 32) else c.

(** [s.lower()] *)
Fixpoint lower (s : string) : string :=
  match s with
  | EmptyString => EmptyString
  | String c s' => String (lower_char c) (lower s')
  end.

(** [s.split(sep)] for a one-character separator: never empty. *)
Fixpoint split (sep : ascii) (s : string) : list string :=
  match s with
  | EmptyString => [EmptyString]
  | String c s' =>
      if Ascii.eqb c sep then EmptyString :: split sep s'
      else match split sep s' with
           | p :: ps => String c p :: ps
           | [] => [String c EmptyString]
           end
  end.

End PyStr.

(** ** Documents *)

(** What [json.load] returns.  A float is carried by the text [str] gives
    for it; an object is its items in insertion order. *)
Inductive json : Type :=
| JNull
| JBool (b : bool)
| JInt (z : Z)
| JFloat (repr : string)
| JStr (s : string)
| JArr (l : list json)
| JObj (items : list (string * json)).

Definition is_dict (v : json) : bool :=
  match v with JObj _ => true | _ => false end.

Definition is_list (v : json) : bool :=
  match v with JArr _ => true | _ => false end.

(** [str(value)] on the values that reach the walker's last branch. *)
Definition str (v : json) : string :=
  match v with
  | JNull => "None"
  | JBool true => "True"
  | JBool false => "False"
  | JInt z => PyStr.of_Z z
  | JFloat repr => repr
  | JStr s => s
  | JArr _ | JObj _ => ""
  end.

(** ** Sets of strings *)

Module PySet.

Definition t := list string.

Definition empty : t := [].

Definition mem (x : string) (s : t) : bool :=
  existsb (String.eqb x) s.

(** [s.add(x)] *)
Definition add (x : string) (s : t) : t :=
  if mem x s then s else s ++ [x].

(** [bool(s)] *)
Definition nonempty (s : t) : bool :=
  match s with [] => false | _ :: _ => true end.

End PySet.

(** ** The accumulator of one field path *)

Record stats : Type := mk_stats {
  count : nat;
  sample_values : list string;
  html_tags : PySet.t;
  max_length : nat;
  has_tables : bool;
  has_lists : bool;
  section_codes : PySet.t
}.

(** The [lambda] given to [defaultdict] in [__init__]. *)
Definition default_stats : stats :=
  {| count := 0; sample_values := []; html_tags := PySet.empty;
     max_length := 0; has_tables := false; has_lists := false;
     section_codes := PySet.empty |}.

Definition set_count (f : nat -> nat) (st : stats) : stats :=
  {| count := f (count st); sample_values := sample_values st;
     html_tags := html_tags st; max_length := max_length st;
     has_tables := has_tables st; has_lists := has_lists st;
     section_codes := section_codes st |}.

Definition set_sample_values (f : list string -> list string) (st : stats) : stats :=
  {| count := count st; sample_values := f (sample_values st);
     html_tags := html_tags st; max_length := max_length st;
     has_tables := has_tables st; has_lists := has_lists st;
     section_codes := section_codes st |}.

Definition set_html_tags (f : PySet.t -> PySet.t) (st : stats) : stats :=
  {| count := count st; sample_values := sample_values st;
     html_tags := f (html_tags st); max_length := max_length st;
     has_tables := has_tables st; has_lists := has_lists st;
     section_codes := section_codes st |}.

Definition set_max_length (f : nat -> nat) (st : stats) : stats :=
  {| count := count st; sample_values := sample_values st;
     html_tags := html_tags st; max_length := f (max_length st);
     has_tables := has_tables st; has_lists := has_lists st;
     section_codes := section_codes st |}.

Definition set_has_tables (b : bool) (st : stats) : stats :=
  {| count := count st; sample_values := sample_values st;
     html_tags := html_tags st; max_length := max_length st;
     has_tables := b; has_lists := has_lists st;
     section_codes := section_codes st |}.

Definition set_has_lists (b : bool) (st : stats) : stats :=
  {| count := count st; sample_values := sample_values st;
     html_tags := html_tags st; max_length := max_length st;
     has_tables := has_tables st; has_lists := b;
     section_codes := section_codes st |}.

Definition set_section_codes (f : PySet.t -> PySet.t) (st : stats) : stats :=
  {| count := count st; sample_values := sample_values st;
     html_tags := html_tags st; max_length := max_length st;
     has_tables := has_tables st; has_lists := has_lists st;
     section_codes := f (section_codes st) |}.

(** ** The accumulator collection [self.field_stats] *)

Definition field_stats := list (string * stats).

(** [FDALabelAnalyzer()] *)
Definition init : field_stats := [].

Module Dict.
Section WithValue.
Context {V : Type}.

(** [d.get(k)] *)
Fixpoint get (k : string) (d : list (string * V)) : option V :=
  match d with
  | [] => None
  | (k', v) :: d' => if String.eqb k k' then Some v else get k d'
  end.

(** [d[k] = v]: an existing key keeps its place, a new one goes last. *)
Fixpoint set (k : string) (v : V) (d : list (string * V)) : list (string * V) :=
  match d with
  | [] => [(k, v)]
  | (k', v') :: d' =>
      if String.eqb k k' then (k', v) :: d' else (k', v') :: set k v d'
  end.

(** [k in d] *)
Definition mem (k : string) (d : list (string * V)) : bool :=
  match get k d with Some _ => true | None => false end.

Definition keys (d : list (string * V)) : list string := map fst d.
End WithValue.
End Dict.

(** ** Exceptions and the analyzer's monad *)

Inductive exn : Type :=
| AttributeError   (* [drug.items()] on a value that is not a [dict] *)
| TypeError.       (* subscripting a [str] or an [int] of the tree *)

Definition M (A : Type) : Type := field_stats -> field_stats * (exn + A).

Definition ret {A} (a : A) : M A := fun fs => (fs, inr a).

Definition raise {A} (e : exn) : M A := fun fs => (fs, inl e).

Definition bind {A B} (m : M A) (k : A -> M B) : M B :=
  fun fs =>
    match m fs with
    | (fs', inr a) => k a fs'
    | (fs', inl e) => (fs', inl e)
    end.

Notation "x <- m ;; k" := (bind m (fun x => k))
  (at level 61, m at next level, right associativity).
Notation "m ;; k" := (bind m (fun _ => k))
  (at level 61, right associativity).

(** [for x in xs: body x] *)
Fixpoint for_each {A} (xs : list A) (body : A -> M unit) : M unit :=
  match xs with
  | [] => ret tt
  | x :: xs' => body x ;; for_each xs' body
  end.

(** [when c: m] *)
Definition when (c : bool) (m : M unit) : M unit :=
  if c then m else ret tt.

(** [self.field_stats[key]]: reading creates the default entry. *)
Definition getitem (key : string) : M stats :=
  fun fs =>
    match Dict.get key fs with
    | Some st => (fs, inr st)
    | None => (fs ++ [(key, default_stats)], inr default_stats)
    end.

(** [self.field_stats[key][...] = ...], written as the change [f] it makes
    to the entry (which it creates first when missing). *)
Definition update (key : string) (f : stats -> stats) : M unit :=
  st <- getitem key ;;
  fun fs => (Dict.set key (f st) fs, inr tt).

(** ** The markup inspector's interface *)

Record Tag : Type := mk_tag {
  name : string;
  attrs : list (string * string)
}.

(** A parsed document, as far as the analyzer looks at it. *)
Record Soup : Type := mk_soup {
  get_text_strip : string;   (* [soup.get_text(strip=True)] *)
  descendants : list Tag     (* every element, in document order *)
}.

Module Bs4.

(** [soup.find_all()] *)
Definition find_all (soup : Soup) : list Tag := descendants soup.

(** [soup.find(names)]: the first element with one of the names. *)
Definition find (names : list string) (soup : Soup) : option Tag :=
  List.find (fun tag => existsb (String.eqb (name tag)) names) (descendants soup).

(** [soup.find_all(attrs={a: True})] *)
Definition find_all_attr (a : string) (soup : Soup) : list Tag :=
  filter (fun tag => Dict.mem a (attrs tag)) (descendants soup).

(** [tag.get(a)] *)
Definition get (a : string) (tag : Tag) : option string :=
  Dict.get a (attrs tag).

(** [bool(x)] of what [find] returns: an element is always true. *)
Definition truthy (r : option Tag) : bool :=
  match r with Some _ => true | None => false end.

End Bs4.

(** ** The walker *)

(** [_is_html]: [re.search(r'<[^>]+>', text)] finds a ['<'], then at least
    one character other than ['>'], then a ['>']. *)
Fixpoint _is_html (text : string) : bool :=
  match text with
  | EmptyString => false
  | String c rest =>
      (Ascii.eqb c "<" &&
       match rest with
       | EmptyString => false
       | String d rest' => negb (Ascii.eqb d ">") && PyStr.mem_char ">" rest'
       end)
      || _is_html rest
  end.

Section Walker.

(** [BeautifulSoup(html, 'html.parser')] *)
Variable BeautifulSoup : string -> Soup.

Definition _analyze_html_content (field_key html : string) : M unit :=
  let soup := BeautifulSoup html in
  let text_content := PyStr.take 200 (get_text_strip soup) in
  st <- getitem field_key ;;
  when (List.length (sample_values st) <? 1)%nat
    (update field_key
       (set_sample_values (fun l => l ++ ["[HTML] " +++ text_content +++ "..."]))) ;;
  for_each (Bs4.find_all soup)
    (fun tag => update field_key (set_html_tags (PySet.add (name tag)))) ;;
  when (Bs4.truthy (Bs4.find ["table"] soup))
    (update field_key (set_has_tables true)) ;;
  when (Bs4.truthy (Bs4.find ["ul"; "ol"] soup))
    (update field_key (set_has_lists true)) ;;
  let sections := Bs4.find_all_attr "data-sectioncode" soup in
  for_each sections
    (fun section =>
       match Bs4.get "data-sectioncode" section with
       | Some code => update field_key (set_section_codes (PySet.add code))
       | None => ret tt   (* not reached: [sections] carry the attribute *)
       end).

Fixpoint _analyze_drug (drug : json) (prefix : string) {struct drug} : M unit :=
  match drug with
  | JObj items =>
      (fix items_loop (items : list (string * json)) : M unit :=
         match items with
         | [] => ret tt
         | (key, value) :: rest =>
             let field_key :=
               if String.eqb prefix "" then key else prefix +++ key in
             match value with
             | JObj _ =>
                 _analyze_drug value (field_key +++ ".")
             | JArr l =>
                 update field_key (set_count (fun n => n + 1)) ;;
                 update field_key
                   (set_sample_values
                      (fun s => s ++ ["[Array with " +++ PyStr.of_nat (List.length l)
                                        +++ " items]"])) ;;
                 match l with
                 | (JObj _ as first) :: _ =>
                     _analyze_drug first (field_key +++ "[0].")
                 | _ => ret tt
                 end
             | JStr s =>
                 update field_key (set_count (fun n => n + 1)) ;;
                 update field_key
                   (set_max_length (fun m => Nat.max m (String.length s))) ;;
                 if _is_html s then
                   _analyze_html_content field_key s
                 else
                   st <- getitem field_key ;;
                   when (List.length (sample_values st) <? 3)%nat
                     (let sample :=
                        if (100 <? String.length s)%nat
                        then PyStr.take 100 s +++ "..." else s in
                      update field_key (set_sample_values (fun l => l ++ [sample])))
             | _ =>
                 update field_key (set_count (fun n => n + 1)) ;;
                 st <- getitem field_key ;;
                 when (List.length (sample_values st) <? 3)%nat
                   (update field_key
                      (set_sample_values (fun l => l ++ [str value])))
             end ;;
             items_loop rest
         end) items
  | _ => raise AttributeError
  end.

End Walker.

(** ** The report *)

(** A value of the structure tree: a nested mapping, or one of the two
    entries of a leaf ([str] type name, [int] occurrences). *)
Inductive tval : Type :=
| TDict (d : list (string * tval))
| TStr (s : string)
| TInt (n : nat).

Record field_info : Type := mk_field_info {
  occurrences : nat;
  info_max_length : nat;
  samples : list string;
  is_html : bool;
  info_html_tags : list string;
  info_has_tables : bool;
  info_has_lists : bool;
  info_section_codes : list string
}.

Record report : Type := mk_report {
  total_fields : nat;
  field_analysis : list (string * field_info);
  html_fields : list string;
  key_sections : list string;
  data_structure : list (string * tval)
}.

(** One field of [_build_structure_tree]: the loop over [parts[:-1]] from
    the mapping [current], then the assignment of the leaf.  When
    [current[part]] is the [str] or the [int] of a leaf, whatever comes next
    raises [TypeError]: on an [int], [part not in current] and
    [current[leaf_name] = ...] both do; on a [str], [part not in current] is
    a substring test, after which [current[part] = {}] or [current[part]]
    raises, and so does the assignment of the leaf. *)
Fixpoint tree_insert (init_parts : list string) (leaf_name : string)
         (leaf : tval) (current : list (string * tval))
  : exn + list (string * tval) :=
  match init_parts with
  | [] => inr (Dict.set leaf_name leaf current)
  | part :: rest =>
      match (match Dict.get part current with
             | Some c => c
             | None => TDict []
             end) with
      | TDict child =>
          match tree_insert rest leaf_name leaf child with
          | inr child' => inr (Dict.set part (TDict child') current)
          | inl e => inl e
          end
      | TStr _ | TInt _ => inl TypeError
      end
  end.

Definition leaf_of (st : stats) : tval :=
  TDict [("type", TStr (if PySet.nonempty (html_tags st) then "html" else "text"));
         ("occurrences", TInt (count st))].

(** The body of the loop over [self.field_stats.keys()]. *)
Definition tree_step (tree : exn + list (string * tval)) (item : string * stats)
  : exn + list (string * tval) :=
  match tree with
  | inl e => inl e
  | inr tree =>
      let (field, st) := item in
      let parts := PyStr.split "." field in
      tree_insert (removelast parts) (last parts "") (leaf_of st) tree
  end.

Definition _build_structure_tree : M (list (string * tval)) :=
  fun fs =>
    match fold_left tree_step fs (inr []) with
    | inr tree => (fs, inr tree)
    | inl e => (fs, inl e)
    end.

Definition keywords : list string :=
  ["indication"; "dosage"; "warning"; "adverse"; "clinical"].

(** [data if isinstance(data, list) else [data]] *)
Definition drugs_of (data : json) : list json :=
  match data with JArr l => l | _ => [data] end.

Section Report.

(** [list(s)]: the order in which Python enumerates the set whose elements
    were first added in the order [s]. *)
Variable set_iter : PySet.t -> list string.

Definition field_info_of (st : stats) : field_info :=
  {| occurrences := count st;
     info_max_length := max_length st;
     samples := firstn 3 (sample_values st);
     is_html := PySet.nonempty (html_tags st);
     info_html_tags :=
       if PySet.nonempty (html_tags st) then set_iter (html_tags st) else [];
     info_has_tables := has_tables st;
     info_has_lists := has_lists st;
     info_section_codes :=
       if PySet.nonempty (section_codes st) then set_iter (section_codes st) else [] |}.

Definition report_step (r : report) (item : string * stats) : report :=
  let (field, st) := item in
  let info := field_info_of st in
  {| total_fields := total_fields r;
     field_analysis := Dict.set field info (field_analysis r);
     html_fields :=
       if is_html info then html_fields r ++ [field] else html_fields r;
     key_sections :=
       if existsb (fun keyword => PyStr.contains keyword (PyStr.lower field)) keywords
       then key_sections r ++ [field] else key_sections r;
     data_structure := data_structure r |}.

Definition _generate_report : M report :=
  tree <- _build_structure_tree ;;
  fun fs =>
    (fs,
     inr (fold_left report_step fs
            {| total_fields := List.length fs;
               field_analysis := [];
               html_fields := [];
               key_sections := [];
               data_structure := tree |})).

(** The per-field part of the report, as the loop builds it. *)
Definition report_fields (fs : field_stats) : list (string * field_info) :=
  map (fun kv => (fst kv, field_info_of (snd kv))) fs.

Variable BeautifulSoup : string -> Soup.

(** [analyze_json_file], from the value [json.load] returned. *)
Definition analyze_json_file (data : json) : M report :=
  let drugs := drugs_of data in
  for_each drugs (fun drug => _analyze_drug BeautifulSoup drug "") ;;
  _generate_report.

End Report.

(** ** What a walk observes, and what one observation does to an entry *)

(** The entry a lookup of [self.field_stats[key]] gives. *)
Definition entry (key : string) (fs : field_stats) : stats :=
  match Dict.get key fs with
  | Some st => st
  | None => default_stats
  end.

(** The collection after the entry at [key] went through [f]. *)
Definition apply_at (key : string) (f : stats -> stats) (fs : field_stats)
  : field_stats :=
  Dict.set key (f (entry key fs)) fs.

(** One value met by the walker at a field path: an array of some length,
    a text, or another scalar by its [str]. *)
Inductive obs : Type :=
| ObsArray (n : nat)
| ObsText (s : string)
| ObsOther (s : string).

(** The values the walker meets in a document, with their field paths, in
    the order it meets them. *)
Fixpoint observations (drug : json) (prefix : string) {struct drug}
  : list (string * obs) :=
  match drug with
  | JObj items =>
      (fix items_loop (items : list (string * json)) : list (string * obs) :=
         match items with
         | [] => []
         | (key, value) :: rest =>
             let field_key :=
               if String.eqb prefix "" then key else prefix +++ key in
             match value with
             | JObj _ => observations value (field_key +++ ".")
             | JArr l =>
                 (field_key, ObsArray (List.length l)) ::
                 match l with
                 | (JObj _ as first) :: _ => observations first (field_key +++ "[0].")
                 | _ => []
                 end
             | JStr s => [(field_key, ObsText s)]
             | _ => [(field_key, ObsOther (str value))]
             end ++ items_loop rest
         end) items
  | _ => []
  end.

(** The documents of a sequence that get walked: those before the first
    value that is not an object. *)
Fixpoint walked (drugs : list json) : list json :=
  match drugs with
  | (JObj _ as drug) :: rest => drug :: walked rest
  | _ => []
  end.

Definition observations_of (drugs : list json) : list (string * obs) :=
  flat_map (fun drug => observations drug "") (walked drugs).

(** The observations made at one field path. *)
Definition at_path (p : string) (os : list (string * obs)) : list obs :=
  map snd (filter (fun o => String.eqb (fst o) p) os).

Definition is_array_obs (o : obs) : bool :=
  match o with ObsArray _ => true | _ => false end.

Definition text_length (o : obs) : nat :=
  match o with ObsText s => String.length s | _ => 0 end.

(** The sample kept for a text that is not markup. *)
Definition text_sample (s : string) : string :=
  if (100 <? String.length s)%nat then PyStr.take 100 s +++ "..." else s.

(** What [_analyze_html_content] does to the entry of its field. *)
Definition merge_html (soup : Soup) (st : stats) : stats :=
  let st1 :=
    if (List.length (sample_values st) <? 1)%nat
    then set_sample_values
           (fun l => l ++ ["[HTML] " +++ PyStr.take 200 (get_text_strip soup) +++ "..."]) st
    else st in
  let st2 :=
    fold_left (fun st tag => set_html_tags (PySet.add (name tag)) st)
              (Bs4.find_all soup) st1 in
  let st3 :=
    if Bs4.truthy (Bs4.find ["table"] soup) then set_has_tables true st2 else st2 in
  let st4 :=
    if Bs4.truthy (Bs4.find ["ul"; "ol"] soup) then set_has_lists true st3 else st3 in
  fold_left
    (fun st section =>
       match Bs4.get "data-sectioncode" section with
       | Some code => set_section_codes (PySet.add code) st
       | None => st
       end)
    (Bs4.find_all_attr "data-sectioncode" soup) st4.

Section Observe.

Variable BeautifulSoup : string -> Soup.

(** What one observation does to the entry of its field path. *)
Definition observe_stats (o : obs) (st : stats) : stats :=
  match o with
  | ObsArray n =>
      set_sample_values
        (fun s => s ++ ["[Array with " +++ PyStr.of_nat n +++ " items]"])
        (set_count (fun n => n + 1) st)
  | ObsText s =>
      let st1 :=
        set_max_length (fun m => Nat.max m (String.length s))
                       (set_count (fun n => n + 1) st) in
      if _is_html s then merge_html (BeautifulSoup s) st1
      else if (List.length (sample_values st1) <? 3)%nat
           then set_sample_values (fun l => l ++ [text_sample s]) st1
           else st1
  | ObsOther s =>
      let st1 := set_count (fun n => n + 1) st in
      if (List.length (sample_values st1) <? 3)%nat
      then set_sample_values (fun l => l ++ [s]) st1
      else st1
  end.

Definition observe (fs : field_stats) (o : string * obs) : field_stats :=
  apply_at (fst o) (observe_stats (snd o)) fs.

(** The collection after the loop of [analyze_json_file] over [drugs]. *)
Definition walk (drugs : list json) (fs : field_stats) : field_stats :=
  fst (for_each drugs (fun drug => _analyze_drug BeautifulSoup drug "") fs).

(** One turn of the loop over [drug.items()]. *)
Definition analyze_item (prefix key : string) (value : json) : M unit :=
  let field_key := if String.eqb prefix "" then key else prefix +++ key in
  match value with
  | JObj _ => _analyze_drug BeautifulSoup value (field_key +++ ".")
  | JArr l =>
      update field_key (set_count (fun n => n + 1)) ;;
      update field_key
        (set_sample_values
           (fun s => s ++ ["[Array with " +++ PyStr.of_nat (List.length l)
                             +++ " items]"])) ;;
      match l with
      | (JObj _ as first) :: _ =>
          _analyze_drug BeautifulSoup first (field_key +++ "[0].")
      | _ => ret tt
      end
  | JStr s =>
      update field_key (set_count (fun n => n + 1)) ;;
      update field_key (set_max_length (fun m => Nat.max m (String.length s))) ;;
      if _is_html s then _analyze_html_content BeautifulSoup field_key s
      else
        st <- getitem field_key ;;
        when (List.length (sample_values st) <? 3)%nat
          (let sample :=
             if (100 <? String.length s)%nat then PyStr.take 100 s +++ "..." else s in
           update field_key (set_sample_values (fun l => l ++ [sample])))
  | _ =>
      update field_key (set_count (fun n => n + 1)) ;;
      st <- getitem field_key ;;
      when (List.length (sample_values st) <? 3)%nat
        (update field_key (set_sample_values (fun l => l ++ [str value])))
  end.

(** What a call of the walker returns and leaves in the collection. *)
Definition walker_spec (drug : json) : Prop :=
  forall prefix fs,
    _analyze_drug BeautifulSoup drug prefix fs
    = (fold_left observe (observations drug prefix) fs,
       if is_dict drug then inr tt else inl AttributeError).

(** All the observations made at one field path, on its entry. *)
Definition observe_all (os : list obs) (st : stats) : stats :=
  fold_left (fun st o => observe_stats o st) os st.

End Observe.

(** The observations of one turn of the loop over [drug.items()]. *)
Definition observe_item (prefix key : string) (value : json) : list (string * obs) :=
  let field_key := if String.eqb prefix "" then key else prefix +++ key in
  match value with
  | JObj _ => observations value (field_key +++ ".")
  | JArr l =>
      (field_key, ObsArray (List.length l)) ::
      match l with
      | (JObj _ as first) :: _ => observations first (field_key +++ "[0].")
      | _ => []
      end
  | JStr s => [(field_key, ObsText s)]
  | _ => [(field_key, ObsOther (str value))]
  end.

(** ** Notions the statements are written with *)

(** The tag set after the names of [tags] were added, in order. *)
Definition add_names (tags : list Tag) (s : PySet.t) : PySet.t :=
  fold_left (fun s tag => PySet.add (name tag) s) tags s.

(** The section-code set after the codes of [sections] were added. *)
Definition add_codes (sections : list Tag) (s : PySet.t) : PySet.t :=
  fold_left
    (fun s section =>
       match Bs4.get "data-sectioncode" section with
       | Some code => PySet.add code s
       | None => s
       end) sections s.

(** The text values among some observations. *)
Definition texts (os : list obs) : list string :=
  flat_map (fun o => match o with ObsText s => [s] | _ => [] end) os.

(** A markup-like text among the observations [os] has, as the parser
    reads it, an element for which [found] holds. *)
Definition some_markup (BeautifulSoup : string -> Soup) (os : list obs)
           (found : Tag -> Prop) : Prop :=
  exists s tag,
    In s (texts os) /\ _is_html s = true /\
    In tag (Bs4.find_all (BeautifulSoup s)) /\ found tag.

(** How many of some observations are arrays. *)
Definition arrays (os : list obs) : nat :=
  List.length (filter is_array_obs os).

(** Flags only rise and sets only grow. *)
Definition grows (old new : stats) : Prop :=
  (has_tables old = true -> has_tables new = true) /\
  (has_lists old = true -> has_lists new = true) /\
  incl (html_tags old) (html_tags new) /\
  incl (section_codes old) (section_codes new).

(** The two sets of an entry never hold an element twice. *)
Definition sets_ok (st : stats) : Prop :=
  NoDup (html_tags st) /\ NoDup (section_codes st).

(** [m] changes nothing but the entry at [key], which it takes through [g],
    and does not raise. *)
Definition acts_on (key : string) (m : M unit) (g : stats -> stats) : Prop :=
  forall fs st,
    Dict.get key fs = Some st -> m fs = (Dict.set key (g st) fs, inr tt).

(** The tree with every type name and every count blanked: what is left
    decides whether the next insertion raises. *)
Fixpoint erase (v : tval) : tval :=
  match v with
  | TDict d =>
      TDict (map (fun kv : string * tval => let (k, x) := kv in (k, erase x)) d)
  | TStr _ => TStr ""
  | TInt _ => TInt 0
  end.

(** [erase] on the entries of a mapping. *)
Definition erase_dict (d : list (string * tval)) : list (string * tval) :=
  map (fun kv : string * tval => let (k, x) := kv in (k, erase x)) d.

(** [erase] on what building the tree gives. *)
Definition erase_result (r : exn + list (string * tval)) : exn + list (string * tval) :=
  match r with
  | inr d => inr (erase_dict d)
  | inl e => inl e
  end.

(** A text is markup-like when it holds a ['<'], then one or more
    characters other than ['>'], then a ['>']. *)
Definition markup_like (text : string) : Prop :=
  exists before inside after,
    text = before +++ "<" +++ inside +++ ">" +++ after /\
    inside <> "" /\
    PyStr.mem_char ">" inside = false.

(** [f"{prefix}{key}" if prefix else key] *)
Definition field_key_of (prefix key : string) : string :=
  if String.eqb prefix "" then key else prefix +++ key.

(** An object, or an array of objects. *)
Definition valid_top (data : json) : bool :=
  match data with
  | JObj _ => true
  | JArr l => forallb is_dict l
  | _ => false
  end.

(** Lexicographic order of a sequence of strings. *)
Definition lex_sorted (l : list string) : Prop :=
  Sorted (fun a b => String.leb a b = true) l.

(** The occurrence count the report gives for each field, in its order. *)
Definition occurrence_counts (r : report) : list (string * nat) :=
  map (fun fi => (fst fi, occurrences (snd fi))) (field_analysis r).

(** The value found by following [parts] down from [v]. *)
Fixpoint tree_at (parts : list string) (v : tval) : option tval :=
  match parts with
  | [] => Some v
  | part :: rest =>
      match v with
      | TDict d =>
          match Dict.get part d with
          | Some child => tree_at rest child
          | None => None
          end
      | TStr _ | TInt _ => None
      end
  end.

(** A [str] or an [int] of the tree, as opposed to a mapping. *)
Definition is_scalar (v : tval) : bool :=
  match v with TDict _ => false | TStr _ | TInt _ => true end.

(** [a] is an initial segment of [b]. *)
Definition prefix_of (a b : list string) : Prop := exists c, b = a ++ c.

(** The type classification and the occurrence count of [st] are in the
    mapping found at the position [parts] of the tree. *)
Definition leaf_info_at (parts : list string) (tree : list (string * tval))
           (st : stats) : Prop :=
  exists d,
    tree_at parts (TDict tree) = Some (TDict d) /\
    Dict.get "type" d
    = Some (TStr (if PySet.nonempty (html_tags st) then "html" else "text")) /\
    Dict.get "occurrences" d = Some (TInt (count st)).

(** The insertion of one field, by its whole list of parts. *)
Fixpoint tree_put (parts : list string) (leaf : tval)
         (current : list (string * tval)) : exn + list (string * tval) :=
  match parts with
  | [] => inr current
  | [leaf_name] => inr (Dict.set leaf_name leaf current)
  | part :: rest =>
      match (match Dict.get part current with
             | Some c => c
             | None => TDict []
             end) with
      | TDict child =>
          match tree_put rest leaf child with
          | inr child' => inr (Dict.set part (TDict child') current)
          | inl e => inl e
          end
      | TStr _ | TInt _ => inl TypeError
      end
  end.

(** No accumulated path continues another one with a segment named as one
    of the two entries of a leaf. *)
Definition no_reserved_child (paths : list string) : Prop :=
  forall q1 q2 s,
    In q1 paths -> In q2 paths ->
    prefix_of (PyStr.split "." q1 ++ [s]) (PyStr.split "." q2) ->
    s <> "type" /\ s <> "occurrences".

(** Every [str] and [int] of the tree is an entry of the leaf of one of the
    [paths]. *)
Definition scalars_under (paths : list string) (tree : list (string * tval)) : Prop :=
  forall pos v,
    tree_at pos (TDict tree) = Some v -> is_scalar v = true ->
    exists q s,
      In q paths /\ pos = PyStr.split "." q ++ [s] /\
      (s = "type" \/ s = "occurrences").

(** ** The tabular summary *)

(** [sep.join(l)] *)
Fixpoint str_join (sep : string) (l : list string) : string :=
  match l with
  | [] => ""
  | [x] => x
  | x :: rest => x +++ sep +++ str_join sep rest
  end.

(** One row of the field summary. *)
Record summary_row : Type := mk_summary_row {
  row_field_path : string;
  row_is_html : bool;
  row_max_length : nat;
  row_has_tables : bool;
  row_has_lists : bool;
  row_html_tags : string;
  row_sample : string
}.

(** [export_field_summary]: the rows it hands to the data frame, one per
    item of [report['field_analysis']]. *)
Definition export_field_summary (r : report) : list summary_row :=
  map (fun item : string * field_info =>
         let (field, info) := item in
         {| row_field_path := field;
            row_is_html := is_html info;
            row_max_length := info_max_length info;
            row_has_tables := info_has_tables info;
            row_has_lists := info_has_lists info;
            row_html_tags :=
              match info_html_tags info with
              | [] => ""
              | _ :: _ => str_join ", " (firstn 10 (info_html_tags info))
              end;
            row_sample :=
              match samples info with
              | [] => ""
              | first :: _ => first
              end |})
      (field_analysis r).

(** ** Printing the structure tree *)

(** [' ' * n] *)
Fixpoint spaces (n : nat) : string :=
  match n with
  | O => ""
  | S n' => String " " (spaces n')
  end.

Section PrintTree.

(** The mark that [_print_tree] prints before every key (three box-drawing
    characters in the source). *)
Variable mark : string.

(** [str(d)] of a mapping [d], as Python formats it. *)
Variable repr_dict : list (string * tval) -> string.

(** [f"{v}"] of a value of the tree. *)
Definition format_tval (v : tval) : string :=
  match v with
  | TStr s => s
  | TInt n => PyStr.of_nat n
  | TDict d => repr_dict d
  end.

(** [_print_tree(tree, indent)], as the lines it prints; [tree] is the
    mapping as a value of the tree.  A value that is a mapping with an entry
    [type] is printed as a leaf; any other value is printed as a branch, and
    entered when it is a mapping. *)
Fixpoint _print_tree (tree : tval) (indent : nat) {struct tree} : list string :=
  match tree with
  | TDict items =>
      (fix items_loop (items : list (string * tval)) : list string :=
         match items with
         | [] => []
         | (key, value) :: rest =>
             match value with
             | TDict d =>
                 match Dict.get "type" d with
                 | Some ty =>
                     [spaces indent +++ mark +++ " " +++ key
                        +++ " (" +++ format_tval ty +++ ")"]
                 | None =>
                     (spaces indent +++ mark +++ " " +++ key +++ "/")
                       :: _print_tree value (indent + 4)
                 end
             | TStr _ | TInt _ =>
                 [spaces indent +++ mark +++ " " +++ key +++ "/"]
             end ++ items_loop rest
         end) items
  | TStr _ | TInt _ => []
  end.

End PrintTree.

(** The test that makes a field a key section: a keyword occurs in the
    lower-cased path. *)
Definition is_key_section (field : string) : bool :=
  existsb (fun keyword => PyStr.contains keyword (PyStr.lower field)) keywords.

(** What holds of every accumulator a walk from an empty collection can
    leave: it was met at least once, holds at least one sample and no more
    samples than occurrences, and its flags and section codes come with the
    tags of the elements they were read from. *)
Definition well_formed (st : stats) : Prop :=
  1 <= count st /\
  1 <= List.length (sample_values st) <= count st /\
  (has_tables st = true -> In "table" (html_tags st)) /\
  (has_lists st = true -> In "ul" (html_tags st) \/ In "ol" (html_tags st)) /\
  (section_codes st <> [] -> html_tags st <> []) /\
  (html_tags st <> [] -> 3 <= max_length st).

(** ** Documents and collections of the examples *)

(** A parser for the examples: it knows three fragments and finds nothing
    in any other text. *)
Definition toy_parser (html : string) : Soup :=
  if String.eqb html "<p>Risk</p><b>x</b>" then
    {| get_text_strip := "Riskx";
       descendants := [mk_tag "p" []; mk_tag "b" []] |}
  else if String.eqb html "<table><tr><td>1</td></tr></table>" then
    {| get_text_strip := "1";
       descendants := [mk_tag "table" []; mk_tag "tr" []; mk_tag "td" []] |}
  else if String.eqb html "<p data-sectioncode='W1'>Risk</p>" then
    {| get_text_strip := "Risk";
       descendants := [mk_tag "p" [("data-sectioncode", "W1")]] |}
  else
    {| get_text_strip := html; descendants := [] |}.

(** [{"items": [{"x": 1}, {"x": 2}]}] *)
Definition doc_items : json :=
  JObj [("items", JArr [JObj [("x", JInt 1)]; JObj [("x", JInt 2)]])].

(** [{"warnings": "<p data-sectioncode='W1'>Risk</p>", "name": "Aspirin"}] *)
Definition doc_warnings : json :=
  JObj [("warnings", JStr "<p data-sectioncode='W1'>Risk</p>");
        ("name", JStr "Aspirin")].

(** [{"a": []}] *)
Definition doc_empty_array : json := JObj [("a", JArr [])].

(** [[{"a": []}, {"a": []}, {"a": []}, {"a": []}]] *)
Definition data_four_arrays : json :=
  JArr [doc_empty_array; doc_empty_array; doc_empty_array; doc_empty_array].

(** [[{"a": 1}, 5]] *)
Definition data_object_then_number : json :=
  JArr [JObj [("a", JInt 1)]; JInt 5].

(** [{"w": "<p>Risk</p><b>x</b>"}] *)
Definition doc_two_tags : json := JObj [("w", JStr "<p>Risk</p><b>x</b>")].

(** The accumulator of a field met once, with the text ["x"]. *)
Definition stats_text_once : stats :=
  {| count := 1; sample_values := ["x"]; html_tags := []; max_length := 1;
     has_tables := false; has_lists := false; section_codes := [] |}.

(** The collection after [{"a": "x"}] and then [{"a": {"b": "x"}}]. *)
Definition fs_leaf_then_branch : field_stats :=
  [("a", stats_text_once); ("a.b", stats_text_once)].

(** [[{"a": "x"}, {"a": {"type": "y"}}]] *)
Definition data_leaf_with_type_child : json :=
  JArr [JObj [("a", JStr "x")]; JObj [("a", JObj [("type", JStr "y")])]].

(** ** Induction on documents *)

Section JsonInd.

Variable P : json -> Prop.
Hypothesis HNull : P JNull.
Hypothesis HBool : forall b, P (JBool b).
Hypothesis HInt : forall z, P (JInt z).
Hypothesis HFloat : forall r, P (JFloat r).
Hypothesis HStr : forall s, P (JStr s).
Hypothesis HArr : forall l, Forall P l -> P (JArr l).
Hypothesis HObj : forall items, Forall (fun kv => P (snd kv)) items -> P (JObj items).

Fixpoint json_nested_ind (v : json) : P v :=
  match v with
  | JNull => HNull
  | JBool b => HBool b
  | JInt z => HInt z
  | JFloat r => HFloat r
  | JStr s => HStr s
  | JArr l =>
      HArr l ((fix all (l : list json) : Forall P l :=
                 match l with
                 | [] => Forall_nil _
                 | x :: r => Forall_cons x (json_nested_ind x) (all r)
                 end) l)
  | JObj items =>
      HObj items
           ((fix all (l : list (string * json)) : Forall (fun kv => P (snd kv)) l :=
               match l with
               | [] => Forall_nil _
               | kv :: r => Forall_cons kv (json_nested_ind (snd kv)) (all r)
               end) items)
  end.

End JsonInd.

(** ** Mappings *)

Module DictFacts.
Section WithValue.
Context {V : Type}.
Implicit Types (d : list (string * V)) (k : string) (v : V).

Lemma get_set_same k v d : Dict.get k (Dict.set k v d) = Some v.
Proof.
  induction d as [|[k' v'] d IH]; simpl.
  - now rewrite String.eqb_refl.
  - destruct (String.eqb k k') eqn:E; simpl; rewrite E; auto.
Qed.

Lemma get_set_other k k' v d :
  k <> k' -> Dict.get k (Dict.set k' v d) = Dict.get k d.
Proof.
  intros Hne. induction d as [|[k2 v2] d IH]; simpl.
  - destruct (String.eqb k k') eqn:E; auto.
    apply String.eqb_eq in E. contradiction.
  - destruct (String.eqb k' k2) eqn:E; simpl.
    + apply String.eqb_eq in E. subst k2.
      destruct (String.eqb k k') eqn:E'; auto.
      apply String.eqb_eq in E'. contradiction.
    + now rewrite IH.
Qed.

Lemma set_set k v1 v2 d :
  Dict.set k v2 (Dict.set k v1 d) = Dict.set k v2 d.
Proof.
  induction d as [|[k' v'] d IH]; simpl.
  - now rewrite String.eqb_refl.
  - destruct (String.eqb k k') eqn:E; simpl; rewrite E; auto.
    now rewrite IH.
Qed.

Lemma set_get k v d : Dict.get k d = Some v -> Dict.set k v d = d.
Proof.
  induction d as [|[k' v'] d IH]; simpl; [discriminate|].
  destruct (String.eqb k k') eqn:E.
  - intros [= ->]. reflexivity.
  - intros H. now rewrite IH.
Qed.

Lemma set_app_missing k v v0 d :
  Dict.get k d = None -> Dict.set k v (d ++ [(k, v0)]) = Dict.set k v d.
Proof.
  induction d as [|[k' v'] d IH]; simpl.
  - now rewrite String.eqb_refl.
  - destruct (String.eqb k k') eqn:E; [discriminate|].
    intros H. now rewrite IH.
Qed.

Lemma keys_set_present k v v0 d :
  Dict.get k d = Some v0 -> Dict.keys (Dict.set k v d) = Dict.keys d.
Proof.
  unfold Dict.keys.
  induction d as [|[k' v'] d IH]; simpl; [discriminate|].
  destruct (String.eqb k k') eqn:E; simpl; auto.
  intros H. now rewrite IH.
Qed.

Lemma keys_set_missing k v d :
  Dict.get k d = None -> Dict.keys (Dict.set k v d) = Dict.keys d ++ [k].
Proof.
  unfold Dict.keys.
  induction d as [|[k' v'] d IH]; simpl; auto.
  destruct (String.eqb k k') eqn:E; simpl; [discriminate|].
  intros H. now rewrite IH.
Qed.

Lemma get_In k v d : Dict.get k d = Some v -> In (k, v) d.
Proof.
  induction d as [|[k' v'] d IH]; simpl; [discriminate|].
  destruct (String.eqb k k') eqn:E.
  - apply String.eqb_eq in E. subst. intros [= ->]. now left.
  - intros H. right. auto.
Qed.

Lemma In_get k v d :
  NoDup (Dict.keys d) -> In (k, v) d -> Dict.get k d = Some v.
Proof.
  unfold Dict.keys.
  induction d as [|[k' v'] d IH]; simpl; [tauto|].
  intros Hnd [[= -> ->]|Hin].
  - now rewrite String.eqb_refl.
  - inversion Hnd as [|? ? Hnotin Hnd']; subst.
    destruct (String.eqb k k') eqn:E.
    + apply String.eqb_eq in E. subst k'.
      exfalso. apply Hnotin. apply in_map_iff. now exists (k, v).
    + auto.
Qed.

Lemma get_None_keys k d : Dict.get k d = None <-> ~ In k (Dict.keys d).
Proof.
  unfold Dict.keys.
  induction d as [|[k' v'] d IH]; simpl; [tauto|].
  destruct (String.eqb k k') eqn:E.
  - apply String.eqb_eq in E. subst. split; [discriminate|tauto].
  - apply String.eqb_neq in E. rewrite IH. split; intros H; [|tauto].
    intros [Heq|Hin]; [congruence|tauto].
Qed.

Lemma keys_set_NoDup k v d :
  NoDup (Dict.keys d) -> NoDup (Dict.keys (Dict.set k v d)).
Proof.
  intros Hnd. destruct (Dict.get k d) eqn:E.
  - now rewrite (keys_set_present _ _ _ _ E).
  - rewrite (keys_set_missing _ _ _ E).
    apply NoDup_app; auto.
    + constructor; [tauto|constructor].
    + intros x Hx [<-|[]]. now apply get_None_keys in E.
Qed.

End WithValue.
End DictFacts.

(** ** Running the monad on one entry *)

Lemma update_run key f fs : update key f fs = (apply_at key f fs, inr tt).
Proof.
  unfold update, bind, getitem, apply_at, entry.
  destruct (Dict.get key fs) eqn:E; [reflexivity|].
  now rewrite DictFacts.set_app_missing.
Qed.

Lemma getitem_present key fs st :
  Dict.get key fs = Some st -> getitem key fs = (fs, inr st).
Proof. unfold getitem. now intros ->. Qed.

Lemma get_apply_at key f fs :
  Dict.get key (apply_at key f fs) = Some (f (entry key fs)).
Proof. apply DictFacts.get_set_same. Qed.

Lemma get_apply_at_other key key' f fs :
  key <> key' -> Dict.get key (apply_at key' f fs) = Dict.get key fs.
Proof. intros. now apply DictFacts.get_set_other. Qed.

Lemma entry_apply_at key f fs : entry key (apply_at key f fs) = f (entry key fs).
Proof. unfold entry at 1. now rewrite get_apply_at. Qed.

Lemma entry_apply_at_other key key' f fs :
  key <> key' -> entry key (apply_at key' f fs) = entry key fs.
Proof. intros. unfold entry. now rewrite get_apply_at_other. Qed.

Lemma acts_ret key : acts_on key (ret tt) (fun st => st).
Proof. intros fs st H. unfold ret. now rewrite DictFacts.set_get. Qed.

Lemma acts_update key f : acts_on key (update key f) f.
Proof.
  intros fs st H. rewrite update_run. unfold apply_at, entry. now rewrite H.
Qed.

Lemma acts_bind key m1 m2 g1 g2 :
  acts_on key m1 g1 -> acts_on key m2 g2 ->
  acts_on key (m1 ;; m2) (fun st => g2 (g1 st)).
Proof.
  intros H1 H2 fs st H. unfold bind. rewrite (H1 _ _ H).
  rewrite (H2 _ (g1 st)) by apply DictFacts.get_set_same.
  now rewrite DictFacts.set_set.
Qed.

Lemma acts_when key (c : bool) m g :
  acts_on key m g -> acts_on key (when c m) (fun st => if c then g st else st).
Proof. destruct c; simpl; auto using acts_ret. Qed.

Lemma acts_getitem key (k : stats -> M unit) (g : stats -> stats -> stats) :
  (forall s, acts_on key (k s) (g s)) ->
  acts_on key (s <- getitem key ;; k s) (fun st => g st st).
Proof.
  intros Hk fs st H. unfold bind. rewrite (getitem_present _ _ _ H).
  now apply Hk.
Qed.

Lemma acts_for_each {A} key (xs : list A) body (h : A -> stats -> stats) :
  (forall x, acts_on key (body x) (h x)) ->
  acts_on key (for_each xs body) (fun st => fold_left (fun st x => h x st) xs st).
Proof.
  intros Hb. induction xs as [|x xs IH]; simpl.
  - apply acts_ret.
  - intros fs st H.
    now rewrite (acts_bind _ _ _ _ _ (Hb x) IH fs st H).
Qed.

Lemma acts_ext key m g g' :
  acts_on key m g -> (forall st, g st = g' st) -> acts_on key m g'.
Proof. intros Hm Hg fs st H. rewrite <- Hg. now apply Hm. Qed.

Lemma acts_seq key m1 m2 g1 g2 g :
  acts_on key m1 g1 -> acts_on key m2 g2 ->
  (forall st, g2 (g1 st) = g st) ->
  acts_on key (m1 ;; m2) g.
Proof.
  intros H1 H2 Hg.
  exact (acts_ext _ _ _ _ (acts_bind _ _ _ _ _ H1 H2) Hg).
Qed.

(** Solves [acts_on key m ?g] along the shape of [m]. *)
Ltac acts :=
  lazymatch goal with
  | |- acts_on _ (bind (getitem _) _) _ =>
      apply acts_getitem; intros ?; acts
  | |- acts_on _ (bind _ _) _ =>
      eapply acts_seq; [acts | acts | intros; reflexivity]
  | |- acts_on _ (when _ _) _ => apply acts_when; acts
  | |- acts_on _ (update _ _) _ => apply acts_update
  | |- acts_on _ (ret tt) _ => apply acts_ret
  | |- acts_on _ (for_each _ (fun _ => update _ _)) _ =>
      apply acts_for_each; intros ?; apply acts_update
  | |- acts_on _ (let _ := _ in _) _ => cbv zeta; acts
  end.

(** A first [update] creates the entry when it is missing; what follows
    finds it. *)
Lemma update_then key f m g h fs :
  acts_on key m g ->
  (forall st, g (f st) = h st) ->
  (update key f ;; m) fs = (apply_at key h fs, inr tt).
Proof.
  intros Hm Hh. unfold bind. rewrite update_run.
  rewrite (Hm _ _ (get_apply_at key f fs)).
  unfold apply_at. now rewrite DictFacts.set_set, Hh.
Qed.

Section WalkerFacts.

Variable BeautifulSoup : string -> Soup.

Lemma analyze_html_content_acts field_key html :
  acts_on field_key (_analyze_html_content BeautifulSoup field_key html)
          (merge_html (BeautifulSoup html)).
Proof.
  unfold _analyze_html_content.
  eapply acts_ext.
  - apply acts_getitem. intros s.
    eapply acts_seq; [acts| |intros; reflexivity].
    eapply acts_seq; [acts| |intros; reflexivity].
    eapply acts_seq; [acts| |intros; reflexivity].
    eapply acts_seq; [acts| |intros; reflexivity].
    apply acts_for_each with
      (h := fun section st =>
              match Bs4.get "data-sectioncode" section with
              | Some code => set_section_codes (PySet.add code) st
              | None => st
              end).
    intros section. destruct (Bs4.get _ section); acts.
  - intros st. unfold merge_html. reflexivity.
Qed.

(** The three accumulating branches of the walker, as changes of the
    entry at the field path. *)
Lemma array_branch field_key n fs :
  (update field_key (set_count (fun n => n + 1)) ;;
   update field_key
     (set_sample_values
        (fun s => s ++ ["[Array with " +++ PyStr.of_nat n +++ " items]"]))) fs
  = (observe BeautifulSoup fs (field_key, ObsArray n), inr tt).
Proof. eapply update_then; [acts|reflexivity]. Qed.

Lemma text_branch field_key s fs :
  (update field_key (set_count (fun n => n + 1)) ;;
   update field_key (set_max_length (fun m => Nat.max m (String.length s))) ;;
   if _is_html s then _analyze_html_content BeautifulSoup field_key s
   else
     st <- getitem field_key ;;
     when (List.length (sample_values st) <? 3)%nat
       (let sample :=
          if (100 <? String.length s)%nat then PyStr.take 100 s +++ "..." else s in
        update field_key (set_sample_values (fun l => l ++ [sample])))) fs
  = (observe BeautifulSoup fs (field_key, ObsText s), inr tt).
Proof.
  unfold observe, observe_stats; cbn [fst snd].
  destruct (_is_html s).
  - eapply update_then;
      [eapply acts_seq;
         [acts|apply analyze_html_content_acts|intros; reflexivity]
      |reflexivity].
  - eapply update_then; [acts|reflexivity].
Qed.

Lemma other_branch field_key s fs :
  (update field_key (set_count (fun n => n + 1)) ;;
   st <- getitem field_key ;;
   when (List.length (sample_values st) <? 3)%nat
     (update field_key (set_sample_values (fun l => l ++ [s])))) fs
  = (observe BeautifulSoup fs (field_key, ObsOther s), inr tt).
Proof. eapply update_then; [acts|reflexivity]. Qed.

Lemma analyze_drug_nil prefix : _analyze_drug BeautifulSoup (JObj []) prefix = ret tt.
Proof. reflexivity. Qed.

Lemma analyze_drug_cons key value rest prefix :
  _analyze_drug BeautifulSoup (JObj ((key, value) :: rest)) prefix
  = (analyze_item BeautifulSoup prefix key value ;; _analyze_drug BeautifulSoup (JObj rest) prefix).
Proof. reflexivity. Qed.

Lemma observations_cons key value rest prefix :
  observations (JObj ((key, value) :: rest)) prefix
  = observe_item prefix key value ++ observations (JObj rest) prefix.
Proof. reflexivity. Qed.

Lemma bind_assoc {A B C} (m : M A) (k : A -> M B) (h : B -> M C) fs :
  bind (bind m k) h fs = bind m (fun a => bind (k a) h) fs.
Proof. unfold bind. destruct (m fs) as [fs' [e|a]]; reflexivity. Qed.

Lemma analyze_item_spec prefix key value fs :
  walker_spec BeautifulSoup value ->
  match value with JArr l => Forall (walker_spec BeautifulSoup) l | _ => True end ->
  analyze_item BeautifulSoup prefix key value fs
  = (fold_left (observe BeautifulSoup) (observe_item prefix key value) fs, inr tt).
Proof.
  intros Hv Hl. unfold analyze_item, observe_item.
  destruct value; cbv beta iota zeta;
    try apply other_branch; try apply text_branch.
  - rewrite <- bind_assoc. unfold bind at 1. rewrite array_branch.
    cbn [fold_left].
    destruct l as [|first l']; [reflexivity|].
    inversion Hl as [|? ? Hfirst _]; subst.
    destruct first; try reflexivity.
    apply Hfirst.
  - apply Hv.
Qed.

Lemma analyze_drug_spec_nested drug :
  walker_spec BeautifulSoup drug /\
  match drug with JArr l => Forall (walker_spec BeautifulSoup) l | _ => True end.
Proof.
  induction drug using json_nested_ind; split; auto; try (intros prefix fs; reflexivity).
  - eapply Forall_impl; [|eassumption]. now intros v [Hv _].
  - induction items as [|[key value] rest IHrest]; intros prefix fs.
    + reflexivity.
    + inversion H as [|? ? [Hv Hl] Hrest]; subst.
      rewrite analyze_drug_cons, observations_cons, fold_left_app.
      unfold bind. rewrite (analyze_item_spec _ _ _ _ Hv Hl).
      apply (IHrest Hrest).
Qed.

Theorem analyze_drug_spec drug : walker_spec BeautifulSoup drug.
Proof. apply analyze_drug_spec_nested. Qed.

(** The loop of [analyze_json_file]: it stops at the first value that is
    not an object, with what the objects before it left. *)
Lemma for_each_drugs drugs fs :
  for_each drugs (fun drug => _analyze_drug BeautifulSoup drug "") fs
  = (fold_left (observe BeautifulSoup) (observations_of drugs) fs,
     if forallb is_dict drugs then inr tt else inl AttributeError).
Proof.
  unfold observations_of.
  revert fs. induction drugs as [|drug rest IH]; intros fs; [reflexivity|].
  cbn [for_each]. unfold bind. rewrite analyze_drug_spec.
  destruct drug; try reflexivity.
  cbn [walked flat_map is_dict forallb andb]. rewrite fold_left_app. apply IH.
Qed.

Lemma walk_observations drugs fs :
  walk BeautifulSoup drugs fs
  = fold_left (observe BeautifulSoup) (observations_of drugs) fs.
Proof. unfold walk. now rewrite for_each_drugs. Qed.

End WalkerFacts.

(** ** What the markup merge does to each component of an entry *)

Lemma fold_set_html_tags tags st :
  fold_left (fun st tag => set_html_tags (PySet.add (name tag)) st) tags st
  = set_html_tags (add_names tags) st.
Proof.
  revert st. induction tags as [|tag tags IH]; intros st; simpl.
  - now destruct st.
  - now rewrite IH.
Qed.

Lemma fold_set_section_codes sections st :
  fold_left
    (fun st section =>
       match Bs4.get "data-sectioncode" section with
       | Some code => set_section_codes (PySet.add code) st
       | None => st
       end) sections st
  = set_section_codes (add_codes sections) st.
Proof.
  revert st. induction sections as [|x xs IH]; intros st; simpl.
  - now destruct st.
  - rewrite IH. unfold add_codes; simpl.
    destruct (Bs4.get "data-sectioncode" x); reflexivity.
Qed.

Lemma merge_html_eq soup st :
  merge_html soup st =
  {| count := count st;
     sample_values :=
       if (List.length (sample_values st) <? 1)%nat
       then sample_values st
              ++ ["[HTML] " +++ PyStr.take 200 (get_text_strip soup) +++ "..."]
       else sample_values st;
     html_tags := add_names (Bs4.find_all soup) (html_tags st);
     max_length := max_length st;
     has_tables := Bs4.truthy (Bs4.find ["table"] soup) || has_tables st;
     has_lists := Bs4.truthy (Bs4.find ["ul"; "ol"] soup) || has_lists st;
     section_codes :=
       add_codes (Bs4.find_all_attr "data-sectioncode" soup) (section_codes st) |}.
Proof.
  unfold merge_html.
  rewrite fold_set_section_codes, fold_set_html_tags.
  destruct (List.length (sample_values st) <? 1)%nat,
           (Bs4.truthy (Bs4.find ["table"] soup)),
           (Bs4.truthy (Bs4.find ["ul"; "ol"] soup)); reflexivity.
Qed.

(** ** Sets *)

Module PySetFacts.

Lemma mem_In x s : PySet.mem x s = true <-> In x s.
Proof.
  unfold PySet.mem. rewrite existsb_exists. split.
  - intros [y [Hy E]]. apply String.eqb_eq in E. now subst.
  - intros H. exists x. split; [assumption|apply String.eqb_refl].
Qed.

Lemma add_incl x s : incl s (PySet.add x s).
Proof.
  unfold PySet.add. destruct (PySet.mem x s); [apply incl_refl|].
  now apply incl_appl, incl_refl.
Qed.

Lemma add_In x s : In x (PySet.add x s).
Proof.
  unfold PySet.add. destruct (PySet.mem x s) eqn:E.
  - now apply mem_In.
  - apply in_or_app. right. now left.
Qed.

Lemma add_NoDup x s : NoDup s -> NoDup (PySet.add x s).
Proof.
  intros H. unfold PySet.add. destruct (PySet.mem x s) eqn:E; [assumption|].
  apply NoDup_app; auto.
  - constructor; [tauto|constructor].
  - intros y Hy [<-|[]]. apply mem_In in Hy. congruence.
Qed.

Lemma add_names_incl tags s : incl s (add_names tags s).
Proof.
  revert s. induction tags as [|t ts IH]; intros s; simpl; [apply incl_refl|].
  eapply incl_tran; [apply add_incl|apply IH].
Qed.

Lemma add_names_NoDup tags s : NoDup s -> NoDup (add_names tags s).
Proof.
  revert s. induction tags as [|t ts IH]; intros s H; simpl; auto using add_NoDup.
Qed.

Lemma add_codes_incl sections s : incl s (add_codes sections s).
Proof.
  revert s. induction sections as [|t ts IH]; intros s; [apply incl_refl|].
  unfold add_codes in *; simpl.
  eapply incl_tran; [|apply IH].
  destruct (Bs4.get _ t); [apply add_incl|apply incl_refl].
Qed.

Lemma add_codes_NoDup sections s : NoDup s -> NoDup (add_codes sections s).
Proof.
  revert s. induction sections as [|t ts IH]; intros s H; [assumption|].
  unfold add_codes in *; simpl. apply IH.
  destruct (Bs4.get _ t); auto using add_NoDup.
Qed.

End PySetFacts.

(** ** One observation, one entry *)

Section ObserveFacts.

Variable BeautifulSoup : string -> Soup.

Lemma entry_observe p fs o :
  entry p (observe BeautifulSoup fs o)
  = if String.eqb (fst o) p
    then observe_stats BeautifulSoup (snd o) (entry p fs)
    else entry p fs.
Proof.
  unfold observe. destruct (String.eqb (fst o) p) eqn:E.
  - apply String.eqb_eq in E. subst. apply entry_apply_at.
  - apply String.eqb_neq in E. apply entry_apply_at_other. congruence.
Qed.

Lemma entry_fold p os fs :
  entry p (fold_left (observe BeautifulSoup) os fs)
  = observe_all BeautifulSoup (at_path p os) (entry p fs).
Proof.
  revert fs. unfold at_path, observe_all.
  induction os as [|o os IH]; intros fs; simpl; [reflexivity|].
  rewrite IH, entry_observe.
  destruct (String.eqb (fst o) p); reflexivity.
Qed.

Lemma observe_count o st : count (observe_stats BeautifulSoup o st) = count st + 1.
Proof.
  destruct o as [n|s|s]; simpl; [reflexivity| |].
  - destruct (_is_html s); [now rewrite merge_html_eq|].
    now destruct (_ <? 3)%nat.
  - now destruct (_ <? 3)%nat.
Qed.

Lemma observe_all_count os st :
  count (observe_all BeautifulSoup os st) = count st + List.length os.
Proof.
  revert st. unfold observe_all.
  induction os as [|o os IH]; intros st; simpl; [lia|].
  rewrite IH, observe_count. lia.
Qed.

Lemma observe_max_length o st :
  max_length (observe_stats BeautifulSoup o st)
  = Nat.max (max_length st)
            (match o with ObsText s => String.length s | _ => 0 end).
Proof.
  destruct o as [n|s|s]; simpl; [lia| |].
  - destruct (_is_html s); [now rewrite merge_html_eq|].
    now destruct (_ <? 3)%nat.
  - destruct (_ <? 3)%nat; simpl; lia.
Qed.

Lemma observe_all_max_length os st :
  max_length (observe_all BeautifulSoup os st)
  = Nat.max (max_length st) (list_max (map String.length (texts os))).
Proof.
  revert st. unfold observe_all, texts.
  induction os as [|o os IH]; intros st; simpl; [lia|].
  rewrite IH, observe_max_length.
  destruct o; simpl; lia.
Qed.

Lemma observe_samples o st :
  List.length (sample_values (observe_stats BeautifulSoup o st))
  <= Nat.max 3 (List.length (sample_values st))
     + (if is_array_obs o then 1 else 0).
Proof.
  destruct o as [n|s|s]; cbn -[Nat.max Nat.ltb].
  - rewrite length_app. cbn -[Nat.max]. lia.
  - destruct (_is_html s).
    + rewrite merge_html_eq; cbn -[Nat.max Nat.ltb].
      destruct (_ <? 1)%nat eqn:E; [|lia].
      apply Nat.ltb_lt in E. rewrite length_app. cbn -[Nat.max]. lia.
    + destruct (_ <? 3)%nat eqn:E; cbn -[Nat.max]; [|lia].
      apply Nat.ltb_lt in E. rewrite length_app. cbn -[Nat.max]. lia.
  - destruct (_ <? 3)%nat eqn:E; cbn -[Nat.max]; [|lia].
    apply Nat.ltb_lt in E. rewrite length_app. cbn -[Nat.max]. lia.
Qed.

Lemma observe_all_samples os st :
  List.length (sample_values (observe_all BeautifulSoup os st))
  <= Nat.max 3 (List.length (sample_values st)) + arrays os.
Proof.
  revert st. unfold observe_all, arrays.
  induction os as [|o os IH]; intros st; cbn -[Nat.max]; [lia|].
  eapply Nat.le_trans; [apply IH|].
  pose proof (observe_samples o st).
  destruct (is_array_obs o); cbn -[Nat.max]; lia.
Qed.

Lemma grows_refl st : grows st st.
Proof. repeat split; auto using incl_refl. Qed.

Lemma grows_trans a b c : grows a b -> grows b c -> grows a c.
Proof.
  intros (H1 & H2 & H3 & H4) (K1 & K2 & K3 & K4).
  repeat split; eauto using incl_tran.
Qed.

Lemma observe_grows o st : grows st (observe_stats BeautifulSoup o st).
Proof.
  assert (Hplain : forall f g, grows st (set_sample_values f (set_count g st))).
  { intros. repeat split; simpl; auto using incl_refl. }
  destruct o as [n|s|s]; simpl.
  - apply Hplain.
  - destruct (_is_html s).
    + rewrite merge_html_eq. repeat split; simpl.
      * intros ->. apply orb_true_r.
      * intros ->. apply orb_true_r.
      * apply PySetFacts.add_names_incl.
      * apply PySetFacts.add_codes_incl.
    + destruct (_ <? 3)%nat; repeat split; simpl; auto using incl_refl.
  - destruct (_ <? 3)%nat; repeat split; simpl; auto using incl_refl.
Qed.

Lemma observe_all_grows os st : grows st (observe_all BeautifulSoup os st).
Proof.
  revert st. unfold observe_all.
  induction os as [|o os IH]; intros st; simpl; [apply grows_refl|].
  eapply grows_trans; [apply observe_grows|apply IH].
Qed.

Lemma observe_sets_ok o st :
  sets_ok st -> sets_ok (observe_stats BeautifulSoup o st).
Proof.
  intros [H1 H2]. destruct o as [n|s|s]; simpl.
  - split; assumption.
  - destruct (_is_html s).
    + rewrite merge_html_eq. split; simpl.
      * now apply PySetFacts.add_names_NoDup.
      * now apply PySetFacts.add_codes_NoDup.
    + destruct (_ <? 3)%nat; split; assumption.
  - destruct (_ <? 3)%nat; split; assumption.
Qed.

Lemma observe_all_sets_ok os st : sets_ok st -> sets_ok (observe_all BeautifulSoup os st).
Proof.
  revert st. unfold observe_all.
  induction os as [|o os IH]; intros st H; simpl; auto using observe_sets_ok.
Qed.

End ObserveFacts.

(** ** The structure tree up to the payload of its leaves *)

Lemma get_erase k d : Dict.get k (erase_dict d) = option_map erase (Dict.get k d).
Proof.
  induction d as [|[k' v] d IH]; simpl; [reflexivity|].
  destruct (String.eqb k k'); auto.
Qed.

Lemma set_erase k v d :
  Dict.set k (erase v) (erase_dict d) = erase_dict (Dict.set k v d).
Proof.
  induction d as [|[k' v'] d IH]; simpl; [reflexivity|].
  destruct (String.eqb k k'); simpl; [reflexivity|].
  now rewrite IH.
Qed.

Lemma tree_insert_erase parts leaf_name leaf current :
  tree_insert parts leaf_name (erase leaf) (erase_dict current)
  = erase_result (tree_insert parts leaf_name leaf current).
Proof.
  revert current. induction parts as [|part rest IH]; intros current; simpl.
  - now rewrite set_erase.
  - rewrite get_erase.
    destruct (Dict.get part current) as [[child|s|n]|]; simpl; try reflexivity.
    + fold (erase_dict child). rewrite IH.
      destruct (tree_insert rest leaf_name leaf child); simpl; [reflexivity|].
      change (TDict (erase_dict l)) with (erase (TDict l)).
      now rewrite set_erase.
    + change (@nil (string * tval)) with (erase_dict []) at 1. rewrite IH.
      destruct (tree_insert rest leaf_name leaf []); simpl; [reflexivity|].
      change (TDict (erase_dict l)) with (erase (TDict l)).
      now rewrite set_erase.
Qed.

Lemma erase_leaf_of st st' : erase (leaf_of st) = erase (leaf_of st').
Proof. reflexivity. Qed.

Lemma tree_step_erase t item :
  erase_result (tree_step t item)
  = match erase_result t with
    | inl e => inl e
    | inr tree =>
        let parts := PyStr.split "." (fst item) in
        tree_insert (removelast parts) (last parts "")
                    (erase (leaf_of (snd item))) tree
    end.
Proof.
  destruct t as [e|tree], item as [field st]; simpl; [reflexivity|].
  symmetry. apply (tree_insert_erase _ _ (leaf_of st)).
Qed.

(** Whether the tree can be built, and its shape, depend on the field
    paths alone. *)
Lemma build_tree_erase fs1 fs2 t1 t2 :
  Dict.keys fs1 = Dict.keys fs2 ->
  erase_result t1 = erase_result t2 ->
  erase_result (fold_left tree_step fs1 t1)
  = erase_result (fold_left tree_step fs2 t2).
Proof.
  revert fs2 t1 t2. unfold Dict.keys.
  induction fs1 as [|x fs1 IH]; intros [|y fs2] t1 t2 Hk Ht;
    simpl in *; try discriminate; auto.
  injection Hk as Hxy Hk. apply IH; auto.
  rewrite !tree_step_erase, Ht, Hxy.
  now rewrite (erase_leaf_of (snd x) (snd y)).
Qed.

(** ** The report, computed *)

Section ReportFacts.

Variable set_iter : PySet.t -> list string.

Lemma generate_report_run fs :
  _generate_report set_iter fs
  = (fs,
     match fold_left tree_step fs (inr []) with
     | inr tree =>
         inr (fold_left (report_step set_iter) fs
                {| total_fields := List.length fs;
                   field_analysis := [];
                   html_fields := [];
                   key_sections := [];
                   data_structure := tree |})
     | inl e => inl e
     end).
Proof.
  unfold _generate_report, bind, _build_structure_tree.
  destruct (fold_left tree_step fs (inr [])); reflexivity.
Qed.

Lemma set_missing {V} k (v : V) d :
  Dict.get k d = None -> Dict.set k v d = d ++ [(k, v)].
Proof.
  induction d as [|[k' v'] d IH]; simpl; [reflexivity|].
  destruct (String.eqb k k'); [discriminate|].
  intros H. now rewrite IH.
Qed.

Lemma report_fold_fields fs r0 :
  NoDup (Dict.keys (field_analysis r0) ++ Dict.keys fs) ->
  field_analysis (fold_left (report_step set_iter) fs r0)
  = field_analysis r0 ++ report_fields set_iter fs.
Proof.
  revert r0. induction fs as [|[k st] fs IH]; intros r0 Hnd; simpl.
  - now rewrite app_nil_r.
  - assert (Hk : Dict.get k (field_analysis r0) = None).
    { apply DictFacts.get_None_keys. intros Hin.
      apply NoDup_remove_2 in Hnd. apply Hnd.
      apply in_or_app. now left. }
    rewrite IH; simpl; rewrite (set_missing _ _ _ Hk).
    + now rewrite <- app_assoc.
    + unfold Dict.keys in *. rewrite map_app. simpl.
      rewrite <- app_assoc. exact Hnd.
Qed.

Lemma report_fold_rest fs r0 :
  total_fields (fold_left (report_step set_iter) fs r0) = total_fields r0 /\
  data_structure (fold_left (report_step set_iter) fs r0) = data_structure r0.
Proof.
  revert r0. induction fs as [|[k st] fs IH]; intros r0; cbn [fold_left]; [auto|].
  destruct (IH (report_step set_iter r0 (k, st))) as [-> ->]. auto.
Qed.

(** Every entry of the report's field analysis is the view of an
    accumulator, whatever the keys. *)
Lemma report_fold_In fs r0 p info :
  In (p, info) (field_analysis (fold_left (report_step set_iter) fs r0)) ->
  In (p, info) (field_analysis r0) \/
  exists st, In (p, st) fs /\ info = field_info_of set_iter st.
Proof.
  revert r0. induction fs as [|[k st] fs IH]; intros r0 H; simpl in *; [auto|].
  destruct (IH _ H) as [Hin|[st' [Hin ->]]].
  - simpl in Hin.
    assert (Hset : forall d, In (p, info) (Dict.set k (field_info_of set_iter st) d) ->
                             In (p, info) d \/ (p = k /\ info = field_info_of set_iter st)).
    { induction d as [|[k' v'] d IHd]; simpl.
      - intros [[= <- <-]|[]]. auto.
      - destruct (String.eqb k k') eqn:E; simpl.
        + apply String.eqb_eq in E. subst k'.
          intros [[= <- <-]|Hd]; auto.
        + intros [Hd|Hd]; auto. destruct (IHd Hd) as [?|?]; auto. }
    destruct (Hset _ Hin) as [?|[-> ->]]; auto.
    right. exists st. auto.
  - right. exists st'. auto.
Qed.

Lemma generate_report_fields fs r :
  NoDup (Dict.keys fs) ->
  snd (_generate_report set_iter fs) = inr r ->
  field_analysis r = report_fields set_iter fs /\ total_fields r = List.length fs.
Proof.
  intros Hnd. rewrite generate_report_run. simpl.
  destruct (fold_left tree_step fs (inr [])) as [e|tree]; [discriminate|].
  intros [= <-]. split.
  - now rewrite report_fold_fields.
  - apply report_fold_rest.
Qed.

Lemma get_report_fields p fs :
  Dict.get p (report_fields set_iter fs)
  = option_map (field_info_of set_iter) (Dict.get p fs).
Proof.
  induction fs as [|[k st] fs IH]; simpl; [reflexivity|].
  destruct (String.eqb p k); auto.
Qed.

Variable BeautifulSoup : string -> Soup.

Lemma analyze_json_file_run data fs :
  analyze_json_file set_iter BeautifulSoup data fs
  = if forallb is_dict (drugs_of data)
    then _generate_report set_iter (walk BeautifulSoup (drugs_of data) fs)
    else (walk BeautifulSoup (drugs_of data) fs, inl AttributeError).
Proof.
  unfold analyze_json_file, bind, walk. rewrite for_each_drugs. simpl.
  destruct (forallb is_dict (drugs_of data)); reflexivity.
Qed.

End ReportFacts.

(** ** Keys of the collection *)

Section KeysFacts.

Variable BeautifulSoup : string -> Soup.

Lemma observe_keys_NoDup fs o :
  NoDup (Dict.keys fs) -> NoDup (Dict.keys (observe BeautifulSoup fs o)).
Proof. apply DictFacts.keys_set_NoDup. Qed.

Lemma fold_observe_keys_NoDup os fs :
  NoDup (Dict.keys fs) ->
  NoDup (Dict.keys (fold_left (observe BeautifulSoup) os fs)).
Proof.
  revert fs. induction os as [|o os IH]; intros fs H; simpl;
    auto using observe_keys_NoDup.
Qed.

Lemma walk_keys_NoDup drugs fs :
  NoDup (Dict.keys fs) -> NoDup (Dict.keys (walk BeautifulSoup drugs fs)).
Proof. rewrite walk_observations. apply fold_observe_keys_NoDup. Qed.

Lemma observe_key_In fs o : In (fst o) (Dict.keys (observe BeautifulSoup fs o)).
Proof.
  unfold observe, apply_at.
  destruct (in_dec string_dec (fst o)
              (Dict.keys (Dict.set (fst o)
                 (observe_stats BeautifulSoup (snd o) (entry (fst o) fs)) fs)))
    as [H|H]; [assumption|].
  apply DictFacts.get_None_keys in H.
  now rewrite DictFacts.get_set_same in H.
Qed.

Lemma observe_keys_incl fs o :
  incl (Dict.keys fs) (Dict.keys (observe BeautifulSoup fs o)).
Proof.
  unfold observe, apply_at. intros k Hk.
  destruct (Dict.get (fst o) fs) eqn:E.
  - now rewrite (DictFacts.keys_set_present _ _ _ _ E).
  - rewrite (DictFacts.keys_set_missing _ _ _ E). apply in_or_app. now left.
Qed.

Lemma fold_observe_keys_incl os fs :
  incl (Dict.keys fs) (Dict.keys (fold_left (observe BeautifulSoup) os fs)).
Proof.
  revert fs. induction os as [|o os IH]; intros fs; simpl; [apply incl_refl|].
  eapply incl_tran; [apply observe_keys_incl|apply IH].
Qed.

Lemma fold_observe_keys_In os fs k :
  In k (map fst os) ->
  In k (Dict.keys (fold_left (observe BeautifulSoup) os fs)).
Proof.
  revert fs. induction os as [|o os IH]; intros fs; simpl; [tauto|].
  intros [<-|H]; [|now apply IH].
  apply fold_observe_keys_incl, observe_key_In.
Qed.

(** Observing paths that all have an entry adds no key. *)
Lemma fold_observe_keys_same os fs :
  incl (map fst os) (Dict.keys fs) ->
  Dict.keys (fold_left (observe BeautifulSoup) os fs) = Dict.keys fs.
Proof.
  revert fs. induction os as [|o os IH]; intros fs H; simpl; [reflexivity|].
  assert (Ho : Dict.keys (observe BeautifulSoup fs o) = Dict.keys fs).
  { unfold observe, apply_at.
    destruct (Dict.get (fst o) fs) eqn:E.
    - now rewrite (DictFacts.keys_set_present _ _ _ _ E).
    - apply DictFacts.get_None_keys in E. exfalso. apply E, H. now left. }
  rewrite IH; [assumption|].
  rewrite Ho. intros k Hk. apply H. now right.
Qed.

End KeysFacts.

(** ** Truncation and the markup test *)

Module PyStrFacts.

Lemma take_prefix n s : String.prefix (PyStr.take n s) s = true.
Proof.
  revert s. induction n as [|n IH]; intros [|c s]; simpl; auto.
  destruct (ascii_dec c c); [apply IH|congruence].
Qed.

Lemma take_length n s :
  String.length (PyStr.take n s) = Nat.min n (String.length s).
Proof.
  revert s. induction n as [|n IH]; intros [|c s]; simpl; auto.
Qed.

Lemma take_all n s : String.length s <= n -> PyStr.take n s = s.
Proof.
  revert s. induction n as [|n IH]; intros [|c s]; simpl; auto; try lia.
  intros H. f_equal. apply IH. lia.
Qed.

Lemma append_nil_r s : s +++ "" = s.
Proof. induction s; simpl; congruence. Qed.

Lemma mem_char_app c a b :
  PyStr.mem_char c (a +++ b) = PyStr.mem_char c a || PyStr.mem_char c b.
Proof.
  induction a as [|d a IH]; simpl; [reflexivity|].
  now rewrite IH, orb_assoc.
Qed.

(** The first occurrence of a character. *)
Lemma mem_char_split c s :
  PyStr.mem_char c s = true ->
  exists a b, s = a +++ String c b /\ PyStr.mem_char c a = false.
Proof.
  induction s as [|d s IH]; simpl; [discriminate|].
  destruct (Ascii.eqb c d) eqn:E; simpl.
  - apply Ascii.eqb_eq in E. subst d. intros _. now exists "", s.
  - intros H. destruct (IH H) as (a & b & -> & Ha).
    exists (String d a), b. simpl. now rewrite E, Ha.
Qed.

End PyStrFacts.

Lemma is_html_markup_like text : _is_html text = true <-> markup_like text.
Proof.
  split.
  - induction text as [|c rest IH]; cbn -[Ascii.eqb]; [discriminate|].
    intros H. apply orb_true_iff in H. destruct H as [H|H].
    + apply andb_true_iff in H. destruct H as [Hc H].
      apply Ascii.eqb_eq in Hc. subst c.
      destruct rest as [|d rest']; [discriminate|].
      apply andb_true_iff in H. destruct H as [Hd H].
      destruct (PyStrFacts.mem_char_split _ _ H) as (a & b & -> & Ha).
      exists "", (String d a), b. cbn -[Ascii.eqb]. repeat split.
      * discriminate.
      * apply negb_true_iff in Hd. now rewrite (Ascii.eqb_sym ">" d), Hd, Ha.
    + destruct (IH H) as (before & inside & after & -> & Hne & Hin).
      exists (String c before), inside, after. auto.
  - intros (before & inside & after & -> & Hne & Hin).
    induction before as [|c before IH]; cbn -[Ascii.eqb].
    + destruct inside as [|d inside]; [congruence|]. cbn -[Ascii.eqb] in *.
      apply orb_false_iff in Hin. destruct Hin as [Hd Hin].
      rewrite (Ascii.eqb_sym d ">"), Hd, Ascii.eqb_refl.
      rewrite PyStrFacts.mem_char_app. cbn -[Ascii.eqb].
      now rewrite Ascii.eqb_refl, orb_true_r.
    + cbn -[Ascii.eqb] in IH. rewrite IH. apply orb_true_r.
Qed.

(** ** The walker on a document with a single field *)

Lemma walk_single_text BeautifulSoup prefix key s fs :
  fst (_analyze_drug BeautifulSoup (JObj [(key, JStr s)]) prefix fs)
  = apply_at (field_key_of prefix key)
             (observe_stats BeautifulSoup (ObsText s)) fs.
Proof. now rewrite analyze_drug_spec. Qed.

(** * The claims *)

(** C8. Walking the single document [{"items":[{"x":1},{"x":2}]}] from an
    empty collection creates exactly two accumulators, in this order:
    [items] with count 1 and the array sample, and [items[0].x] with count 1
    and the sample ["1"].  Whatever stands second in the array, the
    collection is the same: the second element is never visited. *)
Theorem C8_items_scenario (BeautifulSoup : string -> Soup) :
  _analyze_drug BeautifulSoup doc_items "" init
  = ([("items",
       {| count := 1; sample_values := ["[Array with 2 items]"]; html_tags := [];
          max_length := 0; has_tables := false; has_lists := false;
          section_codes := [] |});
      ("items[0].x",
       {| count := 1; sample_values := ["1"]; html_tags := [];
          max_length := 0; has_tables := false; has_lists := false;
          section_codes := [] |})],
     inr tt)
  /\ forall second : json,
      _analyze_drug BeautifulSoup
        (JObj [("items", JArr [JObj [("x", JInt 1)]; second])]) "" init
      = _analyze_drug BeautifulSoup doc_items "" init.
Proof. split; [reflexivity|intros second; reflexivity]. Qed.

(** C6. For a text that is not markup-like, met at a field path that holds
    fewer than 3 samples, the walker stores one more sample: the first
    [min 100 (len value)] characters of the value, followed by ["..."] when
    the value is longer than 100 characters. *)
Theorem C6_text_sample_truncated (BeautifulSoup : string -> Soup)
        (prefix key value : string) (fs : field_stats) :
  ~ markup_like value ->
  List.length (sample_values (entry (field_key_of prefix key) fs)) < 3 ->
  exists head,
    sample_values
      (entry (field_key_of prefix key)
             (fst (_analyze_drug BeautifulSoup (JObj [(key, JStr value)]) prefix fs)))
    = sample_values (entry (field_key_of prefix key) fs)
        ++ [head +++ (if (100 <? String.length value)%nat then "..." else "")]
    /\ String.prefix head value = true
    /\ String.length head = Nat.min 100 (String.length value).
Proof.
  intros Hm Hlen.
  assert (Hh : _is_html value = false).
  { destruct (_is_html value) eqn:E; [|reflexivity].
    exfalso. now apply Hm, is_html_markup_like. }
  exists (PyStr.take 100 value).
  rewrite walk_single_text, entry_apply_at.
  split; [|split; [apply PyStrFacts.take_prefix|apply PyStrFacts.take_length]].
  apply Nat.ltb_lt in Hlen.
  cbn [observe_stats]. rewrite Hh. cbv zeta.
  cbn [sample_values set_max_length set_count]. rewrite Hlen.
  cbn [sample_values set_sample_values]. unfold text_sample.
  destruct (100 <? String.length value)%nat eqn:E; [reflexivity|].
  apply Nat.ltb_ge in E.
  now rewrite PyStrFacts.take_all, PyStrFacts.append_nil_r.
Qed.

Lemma not_markup_like_Aspirin : ~ markup_like "Aspirin".
Proof. intros H. apply is_html_markup_like in H. discriminate. Defined.

Lemma C6_witness :
  ~ markup_like "Aspirin" /\
  List.length (sample_values (entry (field_key_of "" "name") init)) < 3 /\
  exists head,
    sample_values
      (entry (field_key_of "" "name")
             (fst (_analyze_drug toy_parser (JObj [("name", JStr "Aspirin")]) "" init)))
    = sample_values (entry (field_key_of "" "name") init)
        ++ [head +++ (if (100 <? String.length "Aspirin")%nat then "..." else "")]
    /\ String.prefix head "Aspirin" = true
    /\ String.length head = Nat.min 100 (String.length "Aspirin").
Proof.
  split; [exact not_markup_like_Aspirin|].
  split; [simpl; lia|].
  apply (C6_text_sample_truncated toy_parser "" "name" "Aspirin" init);
    [exact not_markup_like_Aspirin|simpl; lia].
Defined.

(** C10. For a text that is markup-like but in which the parser finds no
    element, met at a field path whose tag set is empty: the walker adds 1
    to the count and raises the maximum length to the length of the text;
    it stores no sample except, when the field had none, the
    ["[HTML] "]-prefixed preview; the tag set stays empty, and the report,
    when it is built, gives the field [is_html = false]. *)
Theorem C10_markup_without_elements (BeautifulSoup : string -> Soup)
        (set_iter : PySet.t -> list string)
        (prefix key text : string) (fs : field_stats) :
  markup_like text ->
  Bs4.find_all (BeautifulSoup text) = [] ->
  html_tags (entry (field_key_of prefix key) fs) = [] ->
  NoDup (Dict.keys fs) ->
  forall fs',
    fs' = fst (_analyze_drug BeautifulSoup (JObj [(key, JStr text)]) prefix fs) ->
    count (entry (field_key_of prefix key) fs')
    = count (entry (field_key_of prefix key) fs) + 1
    /\ max_length (entry (field_key_of prefix key) fs')
       = Nat.max (max_length (entry (field_key_of prefix key) fs)) (String.length text)
    /\ sample_values (entry (field_key_of prefix key) fs')
       = match sample_values (entry (field_key_of prefix key) fs) with
         | [] => ["[HTML] "
                    +++ PyStr.take 200 (get_text_strip (BeautifulSoup text)) +++ "..."]
         | kept => kept
         end
    /\ html_tags (entry (field_key_of prefix key) fs') = []
    /\ forall r,
        snd (_generate_report set_iter fs') = inr r ->
        exists info,
          Dict.get (field_key_of prefix key) (field_analysis r) = Some info /\
          is_html info = false.
Proof.
  intros Hm Hnone Htags Hnd fs' ->.
  apply is_html_markup_like in Hm.
  rewrite walk_single_text, entry_apply_at.
  set (old := entry (field_key_of prefix key) fs) in *.
  assert (Hnew : observe_stats BeautifulSoup (ObsText text) old
                 = {| count := count old + 1;
                      sample_values :=
                        match sample_values old with
                        | [] => ["[HTML] "
                                   +++ PyStr.take 200 (get_text_strip (BeautifulSoup text))
                                   +++ "..."]
                        | kept => kept
                        end;
                      html_tags := [];
                      max_length := Nat.max (max_length old) (String.length text);
                      has_tables := has_tables old;
                      has_lists := has_lists old;
                      section_codes := section_codes old |}).
  { cbn [observe_stats]. rewrite Hm. cbv zeta. rewrite merge_html_eq.
    unfold Bs4.find, Bs4.find_all_attr. unfold Bs4.find_all in *.
    rewrite Hnone. cbn -[Nat.max String.append]. rewrite Htags.
    destruct (sample_values old); reflexivity. }
  rewrite Hnew. cbn [count max_length sample_values html_tags].
  repeat split.
  intros r Hr.
  apply generate_report_fields in Hr.
  - destruct Hr as [-> _]. rewrite get_report_fields, get_apply_at.
    fold old. rewrite Hnew. cbn. eexists. split; reflexivity.
  - apply DictFacts.keys_set_NoDup, Hnd.
Qed.

Lemma markup_like_comparison : markup_like "a < b > c".
Proof. apply is_html_markup_like. reflexivity. Defined.

Lemma C10_witness :
  markup_like "a < b > c" /\
  Bs4.find_all (toy_parser "a < b > c") = [] /\
  html_tags (entry (field_key_of "" "note") init) = [] /\
  NoDup (Dict.keys init) /\
  count (entry (field_key_of "" "note")
               (fst (_analyze_drug toy_parser (JObj [("note", JStr "a < b > c")]) "" init)))
  = count (entry (field_key_of "" "note") init) + 1.
Proof.
  split; [exact markup_like_comparison|].
  split; [reflexivity|].
  split; [reflexivity|].
  split; [constructor|].
  apply (C10_markup_without_elements toy_parser (fun s => s) "" "note" "a < b > c" init
           markup_like_comparison eq_refl eq_refl (NoDup_nil _) _ eq_refl).
Defined.

(** C7. At every field path, an observation never lowers the recorded
    maximum length, nor does the walk of any further documents; and after
    walking any sequence of documents from an empty collection the recorded
    maximum is the greatest length among the text values met at that path,
    0 when there was none. *)
Theorem C7_max_length (BeautifulSoup : string -> Soup) (p : string) :
  (forall fs o,
      max_length (entry p fs) <= max_length (entry p (observe BeautifulSoup fs o)))
  /\ (forall fs drugs,
         max_length (entry p fs) <= max_length (entry p (walk BeautifulSoup drugs fs)))
  /\ (forall drugs,
         max_length (entry p (walk BeautifulSoup drugs init))
         = list_max (map String.length (texts (at_path p (observations_of drugs))))).
Proof.
  split; [|split].
  - intros fs o. rewrite entry_observe.
    destruct (String.eqb (fst o) p); [|lia].
    rewrite observe_max_length. lia.
  - intros fs drugs.
    rewrite walk_observations, entry_fold, observe_all_max_length. lia.
  - intros drugs.
    rewrite walk_observations, entry_fold, observe_all_max_length.
    reflexivity.
Qed.

(** C3. At every field path and across any documents walked, the
    [has_tables] and [has_lists] flags stay true once true, and the tag set
    and the section-code set keep every element they hold: each observation
    can only add. *)
Theorem C3_flags_and_sets_monotonic (BeautifulSoup : string -> Soup)
        (p : string) (fs : field_stats) :
  (forall o,
      (has_tables (entry p fs) = true ->
       has_tables (entry p (observe BeautifulSoup fs o)) = true) /\
      (has_lists (entry p fs) = true ->
       has_lists (entry p (observe BeautifulSoup fs o)) = true) /\
      incl (html_tags (entry p fs)) (html_tags (entry p (observe BeautifulSoup fs o))) /\
      incl (section_codes (entry p fs))
           (section_codes (entry p (observe BeautifulSoup fs o))))
  /\ (forall drugs,
         (has_tables (entry p fs) = true ->
          has_tables (entry p (walk BeautifulSoup drugs fs)) = true) /\
         (has_lists (entry p fs) = true ->
          has_lists (entry p (walk BeautifulSoup drugs fs)) = true) /\
         incl (html_tags (entry p fs))
              (html_tags (entry p (walk BeautifulSoup drugs fs))) /\
         incl (section_codes (entry p fs))
              (section_codes (entry p (walk BeautifulSoup drugs fs))) /\
         (Dict.mem p fs = true -> Dict.mem p (walk BeautifulSoup drugs fs) = true)).
Proof.
  split.
  - intros o. rewrite entry_observe.
    destruct (String.eqb (fst o) p).
    + apply (observe_grows BeautifulSoup).
    + apply (grows_refl (entry p fs)).
  - intros drugs. rewrite walk_observations.
    pose proof (observe_all_grows BeautifulSoup
                  (at_path p (observations_of drugs)) (entry p fs)) as H.
    rewrite <- entry_fold in H.
    destruct H as (H1 & H2 & H3 & H4). repeat split; auto.
    unfold Dict.mem. intros Hin.
    destruct (Dict.get p fs) eqn:E; [|discriminate].
    destruct (Dict.get p (fold_left _ _ fs)) eqn:E'; [reflexivity|].
    apply DictFacts.get_None_keys in E'. exfalso. apply E'.
    apply fold_observe_keys_incl.
    destruct (in_dec string_dec p (Dict.keys fs)) as [Hk|Hk]; [assumption|].
    apply DictFacts.get_None_keys in Hk. congruence.
Qed.

(** The report never lists more than 3 samples for a field, because it
    keeps the first 3 of the accumulator's list.  The accumulator's own
    list, after any documents walked from an empty collection, holds at most
    3 samples plus one for each array met at the path. *)
Lemma samples_bounded (BeautifulSoup : string -> Soup)
      (set_iter : PySet.t -> list string) (p : string) :
  (forall drugs,
      List.length (sample_values (entry p (walk BeautifulSoup drugs init)))
      <= 3 + arrays (at_path p (observations_of drugs)))
  /\ (forall data fs r info,
         snd (analyze_json_file set_iter BeautifulSoup data fs) = inr r ->
         In (p, info) (field_analysis r) ->
         List.length (samples info) <= 3).
Proof.
  split.
  - intros drugs. rewrite walk_observations, entry_fold.
    eapply Nat.le_trans; [apply observe_all_samples|]. simpl. lia.
  - intros data fs r info. rewrite analyze_json_file_run.
    destruct (forallb is_dict (drugs_of data)); [|discriminate].
    rewrite generate_report_run. cbn [snd].
    destruct (fold_left tree_step _ (inr [])) as [e|tree]; [discriminate|].
    intros [= <-] Hin.
    apply report_fold_In in Hin. destruct Hin as [[]|[st [_ ->]]].
    cbn [samples field_info_of]. apply firstn_le_length.
Qed.

(** C1.  The analysis of four documents whose field [a] is an array leaves
    four samples in the accumulator of [a]: the array branch of the walker
    appends its sample whatever the list holds, where its text branch and
    its scalar branch append only while the list holds fewer than 3.  So the
    accumulator's list is not bounded by 3. *)
Theorem C1_array_samples_exceed_three :
  sample_values
    (entry "a"
       (fst (analyze_json_file (fun s => s) toy_parser data_four_arrays init)))
  = ["[Array with 0 items]"; "[Array with 0 items]";
     "[Array with 0 items]"; "[Array with 0 items]"]
  /\ ~ (forall (BeautifulSoup : string -> Soup) (drugs : list json) (p : string),
           List.length (sample_values (entry p (walk BeautifulSoup drugs init)))
           <= 3).
Proof.
  split; [reflexivity|].
  intros H.
  specialize (H toy_parser (drugs_of data_four_arrays) "a").
  vm_compute in H. lia.
Qed.

(** ** The top-level value *)

Lemma valid_top_drugs data : valid_top data = forallb is_dict (drugs_of data).
Proof. destruct data; reflexivity. Qed.

Lemma walked_idem drugs : walked (walked drugs) = walked drugs.
Proof.
  induction drugs as [|d rest IH]; [reflexivity|].
  destruct d; simpl; congruence.
Qed.

Lemma walk_walked BeautifulSoup drugs fs :
  walk BeautifulSoup drugs fs = walk BeautifulSoup (walked drugs) fs.
Proof.
  rewrite !walk_observations. unfold observations_of. now rewrite walked_idem.
Qed.

(** C5, as the code has it.  When the top-level value is neither an object
    nor an array of objects, the analysis raises [AttributeError] and gives
    no report; the collection is left as the walk of the objects that come
    before the first other value of a top-level array made it, and is
    untouched when the top-level value is not an array. *)
Theorem C5_input_error (set_iter : PySet.t -> list string)
        (BeautifulSoup : string -> Soup) (data : json) (fs : field_stats) :
  valid_top data = false ->
  analyze_json_file set_iter BeautifulSoup data fs
  = (walk BeautifulSoup (walked (drugs_of data)) fs, inl AttributeError)
  /\ (is_list data = false ->
      fst (analyze_json_file set_iter BeautifulSoup data fs) = fs).
Proof.
  intros Hv. rewrite valid_top_drugs in Hv.
  rewrite analyze_json_file_run, Hv, <- walk_walked. split; [reflexivity|].
  destruct data; try discriminate; intros _; reflexivity.
Qed.

Lemma C5_witness :
  valid_top data_object_then_number = false /\
  analyze_json_file (fun s => s) toy_parser data_object_then_number init
  = (walk toy_parser (walked (drugs_of data_object_then_number)) init,
     inl AttributeError).
Proof.
  split; [reflexivity|].
  apply (C5_input_error (fun s => s) toy_parser data_object_then_number init eq_refl).
Defined.

(** C5 fails as stated: after the failed analysis of [[{"a":1}, 5]] the
    collection holds the accumulator of [a]. *)
Lemma C5_counterexample :
  valid_top data_object_then_number = false /\
  snd (analyze_json_file (fun s => s) toy_parser data_object_then_number init)
  = inl AttributeError /\
  fst (analyze_json_file (fun s => s) toy_parser data_object_then_number init)
  = [("a",
      {| count := 1; sample_values := ["1"]; html_tags := [];
         max_length := 0; has_tables := false; has_lists := false;
         section_codes := [] |})] /\
  fst (analyze_json_file (fun s => s) toy_parser data_object_then_number init)
  <> init.
Proof. repeat split; try reflexivity. discriminate. Qed.

(** ** Order of the serialized sets *)

(** C9 fails as stated: with the set enumerated in the order its elements
    were added, the report lists the tags of [w] as [p], [b]; and the same
    corpus gives another report under another enumeration order. *)
Lemma C9_counterexample :
  exists r r',
    snd (analyze_json_file (fun s => s) toy_parser doc_two_tags init) = inr r /\
    snd (analyze_json_file (@rev string) toy_parser doc_two_tags init) = inr r' /\
    option_map info_html_tags (Dict.get "w" (field_analysis r)) = Some ["p"; "b"] /\
    ~ lex_sorted ["p"; "b"] /\
    r <> r'.
Proof.
  eexists. eexists.
  split; [reflexivity|]. split; [reflexivity|]. split; [reflexivity|].
  split; [|discriminate].
  intros H. inversion H as [|? ? _ Hhd]; subst.
  inversion Hhd as [|? ? Hle]; subst. discriminate.
Qed.

(** C9, as the code has it.  In the built report the tags and the section
    codes of a field are listed without repetition, each list holding
    exactly the elements of the accumulated set, in the order in which the
    set is enumerated; no sorting takes place. *)
Theorem C9_sets_serialized (set_iter : PySet.t -> list string)
        (BeautifulSoup : string -> Soup) (data : json) (r : report) :
  (forall s, Permutation (set_iter s) s) ->
  snd (analyze_json_file set_iter BeautifulSoup data init) = inr r ->
  forall p info,
    Dict.get p (field_analysis r) = Some info ->
    info_html_tags info
    = set_iter (html_tags (entry p (walk BeautifulSoup (drugs_of data) init))) /\
    info_section_codes info
    = set_iter (section_codes (entry p (walk BeautifulSoup (drugs_of data) init))) /\
    NoDup (info_html_tags info) /\
    NoDup (info_section_codes info) /\
    (forall x, In x (info_html_tags info) <->
               In x (html_tags (entry p (walk BeautifulSoup (drugs_of data) init)))) /\
    (forall x, In x (info_section_codes info) <->
               In x (section_codes (entry p (walk BeautifulSoup (drugs_of data) init)))).
Proof.
  intros Hperm Hr p info Hget.
  rewrite analyze_json_file_run in Hr.
  destruct (forallb is_dict (drugs_of data)); [|discriminate].
  set (fs := walk BeautifulSoup (drugs_of data) init) in *.
  apply generate_report_fields in Hr; [|apply walk_keys_NoDup; constructor].
  destruct Hr as [Hfa _]. rewrite Hfa, get_report_fields in Hget.
  unfold entry. destruct (Dict.get p fs) as [st|] eqn:E; [|discriminate].
  injection Hget as <-.
  assert (Hok : sets_ok st).
  { pose proof (observe_all_sets_ok BeautifulSoup
                  (at_path p (observations_of (drugs_of data))) (entry p init)) as H.
    rewrite <- entry_fold, <- walk_observations in H. fold fs in H.
    specialize (H (conj (NoDup_nil _) (NoDup_nil _))).
    unfold entry in H. now rewrite E in H. }
  destruct Hok as [Ht Hc].
  assert (Hiter : forall s, (if PySet.nonempty s then set_iter s else []) = set_iter s).
  { intros [|x s]; simpl; [|reflexivity].
    symmetry. apply Permutation_nil. apply Permutation_sym, Hperm. }
  cbn [info_html_tags info_section_codes field_info_of]. rewrite !Hiter.
  repeat split.
  - eapply Permutation_NoDup; [apply Permutation_sym, Hperm|exact Ht].
  - eapply Permutation_NoDup; [apply Permutation_sym, Hperm|exact Hc].
  - apply Permutation_in, Hperm.
  - apply Permutation_in, Permutation_sym, Hperm.
  - apply Permutation_in, Hperm.
  - apply Permutation_in, Permutation_sym, Hperm.
Qed.

Lemma C9_witness :
  (forall s : PySet.t, Permutation ((fun s => s) s) s) /\
  exists r,
    snd (analyze_json_file (fun s => s) toy_parser doc_two_tags init) = inr r /\
    exists info,
      Dict.get "w" (field_analysis r) = Some info /\
      NoDup (info_html_tags info).
Proof.
  split; [intros s; apply Permutation_refl|].
  eexists. split; [reflexivity|].
  eexists. split; [reflexivity|].
  apply (C9_sets_serialized (fun s => s) toy_parser doc_two_tags _
           (fun s => Permutation_refl s) eq_refl "w" _ eq_refl).
Defined.

(** ** Walking a document twice *)

Lemma entry_cons_same k st fs : entry k ((k, st) :: fs) = st.
Proof. unfold entry. simpl. now rewrite String.eqb_refl. Qed.

Lemma entry_cons_other p k st fs : p <> k -> entry p ((k, st) :: fs) = entry p fs.
Proof.
  intros H. unfold entry. simpl.
  apply String.eqb_neq in H. now rewrite H.
Qed.

Lemma entry_missing p (fs : field_stats) :
  ~ In p (Dict.keys fs) -> entry p fs = default_stats.
Proof.
  intros H. apply DictFacts.get_None_keys in H. unfold entry. now rewrite H.
Qed.

Lemma doubled_counts (fs1 fs2 : field_stats) :
  Dict.keys fs2 = Dict.keys fs1 ->
  NoDup (Dict.keys fs1) ->
  (forall p, count (entry p fs2) = 2 * count (entry p fs1)) ->
  map (fun kv => (fst kv, count (snd kv))) fs2
  = map (fun kv => (fst kv, 2 * count (snd kv))) fs1.
Proof.
  revert fs2. induction fs1 as [|[k st] fs1 IH]; intros [|[k' st'] fs2] Hk Hnd Hc;
    try discriminate; [reflexivity|].
  unfold Dict.keys in Hk. simpl in Hk. injection Hk as -> Hk.
  inversion Hnd as [|? ? Hnotin Hnd']; subst.
  cbn [map fst snd]. f_equal.
  - specialize (Hc k). rewrite !entry_cons_same in Hc. now rewrite Hc.
  - apply IH; auto.
    intros p. destruct (string_dec p k) as [->|Hne].
    + rewrite !entry_missing; auto. unfold Dict.keys. now rewrite Hk.
    + specialize (Hc p). now rewrite !entry_cons_other in Hc by assumption.
Qed.

(** C2. Walking a document twice from an empty collection and then building
    the report gives, field for field and in the same order, exactly twice
    the occurrence count that walking it once gives; and the report of the
    double walk is built exactly when the report of the single walk is (the
    structure tree raises for both or for neither). *)
Theorem C2_walk_twice_doubles (BeautifulSoup : string -> Soup)
        (set_iter : PySet.t -> list string) (d : list (string * json)) :
  match
    snd ((_analyze_drug BeautifulSoup (JObj d) "" ;;
          _generate_report set_iter) init),
    snd ((_analyze_drug BeautifulSoup (JObj d) "" ;;
          _analyze_drug BeautifulSoup (JObj d) "" ;;
          _generate_report set_iter) init)
  with
  | inr once, inr twice =>
      occurrence_counts twice
      = map (fun pc => (fst pc, 2 * snd pc)) (occurrence_counts once)
  | inl e1, inl e2 => e1 = e2
  | _, _ => False
  end.
Proof.
  unfold bind. rewrite !analyze_drug_spec. cbn [is_dict].
  set (os := observations (JObj d) "").
  set (fs1 := fold_left (observe BeautifulSoup) os init).
  set (fs2 := fold_left (observe BeautifulSoup) os fs1).
  assert (Hnd1 : NoDup (Dict.keys fs1)).
  { apply fold_observe_keys_NoDup. constructor. }
  assert (Hnd2 : NoDup (Dict.keys fs2)).
  { now apply fold_observe_keys_NoDup. }
  assert (Hkeys : Dict.keys fs2 = Dict.keys fs1).
  { apply fold_observe_keys_same. intros k Hk.
    now apply fold_observe_keys_In. }
  assert (Hcount : forall p, count (entry p fs2) = 2 * count (entry p fs1)).
  { intros p. unfold fs2, fs1. rewrite !entry_fold, !observe_all_count.
    unfold entry. simpl. lia. }
  rewrite !generate_report_run. cbn [snd].
  pose proof (build_tree_erase fs1 fs2 (inr []) (inr []) (eq_sym Hkeys) eq_refl)
    as Htree.
  destruct (fold_left tree_step fs1 (inr [])) as [e1|t1],
           (fold_left tree_step fs2 (inr [])) as [e2|t2];
    simpl in Htree; try discriminate; [congruence|].
  unfold occurrence_counts.
  rewrite !report_fold_fields by (simpl; assumption).
  cbn [field_analysis app]. unfold report_fields.
  rewrite !map_map. cbn [fst snd field_info_of occurrences].
  now apply doubled_counts.
Qed.

(** ** Positions in the structure tree *)

Module TreeFacts.

Lemma split_nonempty sep s : PyStr.split sep s <> [].
Proof.
  destruct s as [|c s]; simpl; [discriminate|].
  destruct (Ascii.eqb c sep); [discriminate|].
  destruct (PyStr.split sep s); discriminate.
Qed.

Lemma tree_put_cons p q rest leaf current :
  tree_put (p :: q :: rest) leaf current
  = match (match Dict.get p current with
           | Some c => c
           | None => TDict []
           end) with
    | TDict child =>
        match tree_put (q :: rest) leaf child with
        | inr child' => inr (Dict.set p (TDict child') current)
        | inl e => inl e
        end
    | TStr _ | TInt _ => inl TypeError
    end.
Proof. reflexivity. Qed.

Lemma tree_insert_put parts leaf current :
  parts <> [] ->
  tree_insert (removelast parts) (last parts "") leaf current
  = tree_put parts leaf current.
Proof.
  revert current. induction parts as [|p rest IH]; intros current Hne;
    [congruence|].
  destruct rest as [|q rest]; [reflexivity|].
  rewrite tree_put_cons.
  change (removelast (p :: q :: rest)) with (p :: removelast (q :: rest)).
  change (last (p :: q :: rest) "") with (last (q :: rest) "").
  cbn [tree_insert].
  destruct (match Dict.get p current with Some c => c | None => TDict [] end);
    try reflexivity.
  now rewrite (IH d) by discriminate.
Qed.

Lemma tree_step_put tree field st :
  tree_step (inr tree) (field, st)
  = tree_put (PyStr.split "." field) (leaf_of st) tree.
Proof. apply tree_insert_put, split_nonempty. Qed.

Lemma prefix_of_nil b : prefix_of [] b.
Proof. now exists b. Qed.

Lemma prefix_of_cons a x b y :
  prefix_of (x :: a) (y :: b) <-> x = y /\ prefix_of a b.
Proof.
  split.
  - intros [c H]. injection H as -> ->. split; [reflexivity|now exists c].
  - intros [-> [c ->]]. now exists c.
Qed.

Lemma prefix_of_cons_nil x a : ~ prefix_of (x :: a) [].
Proof. intros [c H]. discriminate. Qed.

Lemma prefix_of_refl a : prefix_of a a.
Proof. exists []. now rewrite app_nil_r. Qed.

Lemma prefix_of_dec a b : {prefix_of a b} + {~ prefix_of a b}.
Proof.
  revert b. induction a as [|x a IH]; intros b.
  - left. apply prefix_of_nil.
  - destruct b as [|y b].
    + right. apply prefix_of_cons_nil.
    + destruct (string_dec x y) as [->|Hne].
      * destruct (IH b) as [H|H].
        -- left. now apply prefix_of_cons.
        -- right. intros H'. now apply prefix_of_cons in H'.
      * right. intros H'. now apply prefix_of_cons in H'.
Qed.

(** What was inserted is found at its position. *)
Lemma put_at parts leaf current current' rho :
  parts <> [] ->
  tree_put parts leaf current = inr current' ->
  tree_at (parts ++ rho) (TDict current') = tree_at rho leaf.
Proof.
  revert current current'.
  induction parts as [|p rest IH]; intros current current' Hne; [congruence|].
  destruct rest as [|q rest].
  - intros [= <-]. simpl. now rewrite DictFacts.get_set_same.
  - rewrite tree_put_cons.
    destruct (match Dict.get p current with Some c => c | None => TDict [] end)
      as [child|s|n]; try discriminate.
    destruct (tree_put (q :: rest) leaf child) as [e|child'] eqn:E; [discriminate|].
    intros [= <-].
    change ((p :: q :: rest) ++ rho) with (p :: ((q :: rest) ++ rho)).
    cbn [tree_at]. rewrite DictFacts.get_set_same.
    apply (IH child); [discriminate|assumption].
Qed.

(** A mapping that is not at or below the position of the insertion stays
    a mapping, and keeps every entry that the inserted path does not go
    through. *)
Lemma put_keeps_dict parts leaf current current' pos d :
  tree_put parts leaf current = inr current' ->
  ~ prefix_of parts pos ->
  tree_at pos (TDict current) = Some (TDict d) ->
  exists d',
    tree_at pos (TDict current') = Some (TDict d') /\
    forall k, ~ prefix_of (pos ++ [k]) parts -> Dict.get k d' = Dict.get k d.
Proof.
  revert current current' pos d.
  induction parts as [|p rest IH]; intros current current' pos d Hput Hnp Hat.
  - exfalso. apply Hnp, prefix_of_nil.
  - assert (Htop : forall c', current' = Dict.set p c' current ->
              pos = [] ->
              exists d',
                tree_at pos (TDict current') = Some (TDict d') /\
                forall k, ~ prefix_of (pos ++ [k]) (p :: rest) ->
                          Dict.get k d' = Dict.get k d).
    { intros c' -> ->. simpl in Hat. injection Hat as <-.
      eexists. split; [reflexivity|].
      intros k Hk. apply DictFacts.get_set_other.
      intros ->. apply Hk. apply prefix_of_cons. split; [reflexivity|].
      apply prefix_of_nil. }
    assert (Hside : forall c' a pos',
              current' = Dict.set p c' current -> pos = a :: pos' -> a <> p ->
              exists d',
                tree_at pos (TDict current') = Some (TDict d') /\
                forall k, ~ prefix_of (pos ++ [k]) (p :: rest) ->
                          Dict.get k d' = Dict.get k d).
    { intros c' a pos' -> -> Ha. exists d. split; [|reflexivity].
      cbn [tree_at] in *. now rewrite DictFacts.get_set_other. }
    destruct rest as [|q rest].
    + injection Hput as Hput. symmetry in Hput.
      destruct pos as [|a pos']; [now apply (Htop leaf)|].
      apply (Hside leaf a pos'); auto.
      intros ->. apply Hnp. apply prefix_of_cons. split; [reflexivity|].
      apply prefix_of_nil.
    + rewrite tree_put_cons in Hput.
      destruct (Dict.get p current) as [c|] eqn:Ec.
      * destruct c as [child|s|n]; try discriminate.
        destruct (tree_put (q :: rest) leaf child) as [e|child'] eqn:E;
          [discriminate|].
        injection Hput as Hput. symmetry in Hput.
        destruct pos as [|a pos']; [now apply (Htop (TDict child'))|].
        destruct (string_dec a p) as [->|Ha];
          [|now apply (Hside (TDict child') a pos')].
        cbn [tree_at] in Hat. rewrite Ec in Hat.
        destruct (IH child child' pos' d E) as (d' & Hd' & Hk); auto.
        { intros H. apply Hnp. now apply prefix_of_cons. }
        exists d'. subst current'. cbn [tree_at].
        rewrite DictFacts.get_set_same. split; [assumption|].
        intros k Hnk. apply Hk. intros H. apply Hnk.
        now apply (prefix_of_cons (pos' ++ [k]) p (q :: rest) p).
      * destruct (tree_put (q :: rest) leaf []) as [e|child'] eqn:E;
          [discriminate|].
        injection Hput as Hput. symmetry in Hput.
        destruct pos as [|a pos']; [now apply (Htop (TDict child'))|].
        destruct (string_dec a p) as [->|Ha];
          [|now apply (Hside (TDict child') a pos')].
        cbn [tree_at] in Hat. rewrite Ec in Hat. discriminate.
Qed.

End TreeFacts.

(** ** When the structure tree is built *)

Module BuildFacts.
Import TreeFacts.

Lemma put_scalar_from parts leaf current current' pos v :
  tree_put parts leaf current = inr current' ->
  ~ prefix_of parts pos ->
  tree_at pos (TDict current') = Some v -> is_scalar v = true ->
  tree_at pos (TDict current) = Some v.
Proof.
  revert current current' pos.
  induction parts as [|p rest IH]; intros current current' pos Hput Hnp Hat Hv.
  - exfalso. apply Hnp, prefix_of_nil.
  - destruct pos as [|a pos'].
    { simpl in Hat. injection Hat as <-. discriminate. }
    assert (Hside : forall c', current' = Dict.set p c' current -> a <> p ->
                               tree_at (a :: pos') (TDict current) = Some v).
    { intros c' -> Ha. cbn [tree_at] in *.
      now rewrite DictFacts.get_set_other in Hat. }
    destruct rest as [|q rest].
    + injection Hput as Hput. symmetry in Hput.
      apply (Hside leaf); auto.
      intros ->. apply Hnp. apply prefix_of_cons. split; [reflexivity|].
      apply prefix_of_nil.
    + rewrite tree_put_cons in Hput.
      destruct (Dict.get p current) as [c|] eqn:Ec.
      * destruct c as [child|s|n]; try discriminate.
        destruct (tree_put (q :: rest) leaf child) as [e|child'] eqn:E;
          [discriminate|].
        injection Hput as Hput. symmetry in Hput.
        destruct (string_dec a p) as [->|Ha]; [|now apply (Hside (TDict child'))].
        subst current'. cbn [tree_at] in *.
        rewrite DictFacts.get_set_same in Hat. rewrite Ec.
        apply (IH child child'); auto.
        intros H. apply Hnp. now apply prefix_of_cons.
      * destruct (tree_put (q :: rest) leaf []) as [e|child'] eqn:E;
          [discriminate|].
        injection Hput as Hput. symmetry in Hput.
        destruct (string_dec a p) as [->|Ha]; [|now apply (Hside (TDict child'))].
        subst current'. cbn [tree_at] in Hat.
        rewrite DictFacts.get_set_same in Hat.
        assert (Hnil : tree_at pos' (TDict []) = Some v).
        { apply (IH [] child'); auto.
          intros H. apply Hnp. now apply prefix_of_cons. }
        destruct pos'; simpl in Hnil; [|discriminate].
        injection Hnil as <-. discriminate.
Qed.

(** The insertion raises only when a proper prefix of the path leads to
    a [str] or an [int]. *)
Lemma put_succeeds parts leaf current :
  (forall pi rho v,
      parts = pi ++ rho -> rho <> [] ->
      tree_at pi (TDict current) = Some v -> is_scalar v = false) ->
  exists current', tree_put parts leaf current = inr current'.
Proof.
  revert current. induction parts as [|p rest IH]; intros current H.
  - now exists current.
  - destruct rest as [|q rest]; [eexists; reflexivity|].
    rewrite tree_put_cons.
    assert (Hchild : exists child,
               (match Dict.get p current with Some c => c | None => TDict [] end)
               = TDict child /\
               forall pi v, tree_at pi (TDict child) = Some v ->
                            is_scalar v = true ->
                            tree_at (p :: pi) (TDict current) = Some v).
    { destruct (Dict.get p current) as [c|] eqn:Ec.
      - destruct c as [child|s|n].
        + exists child. split; [reflexivity|].
          intros pi v Hat _. cbn [tree_at]. now rewrite Ec.
        + specialize (H [p] (q :: rest) (TStr s) eq_refl).
          cbn [tree_at] in H. rewrite Ec in H. discriminate H; [discriminate|reflexivity].
        + specialize (H [p] (q :: rest) (TInt n) eq_refl).
          cbn [tree_at] in H. rewrite Ec in H. discriminate H; [discriminate|reflexivity].
      - exists []. split; [reflexivity|].
        intros [|a pi] v Hat Hv; simpl in Hat; [|discriminate].
        injection Hat as <-. discriminate. }
    destruct Hchild as (child & -> & Hc).
    destruct (IH child) as [child' ->]; [|eexists; reflexivity].
    intros pi rho v Hparts Hrho Hat.
    destruct (is_scalar v) eqn:Ev; [|reflexivity].
    rewrite <- Ev. apply (H (p :: pi) rho v); auto.
    simpl. now rewrite Hparts.
Qed.

Lemma leaf_scalar_at st rho v :
  tree_at rho (leaf_of st) = Some v -> is_scalar v = true ->
  rho = ["type"] \/ rho = ["occurrences"].
Proof.
  destruct rho as [|k rho]; simpl.
  - intros [= <-]. discriminate.
  - destruct (String.eqb k "type") eqn:E1.
    + apply String.eqb_eq in E1. subst k.
      destruct rho; simpl; [auto|discriminate].
    + destruct (String.eqb k "occurrences") eqn:E2; [|discriminate].
      apply String.eqb_eq in E2. subst k.
      destruct rho; simpl; [auto|discriminate].
Qed.

Lemma fold_tree_step_inl fs e : fold_left tree_step fs (inl e) = inl e.
Proof. induction fs as [|x fs IH]; simpl; auto. Qed.

(** With no reserved child among the paths, every insertion goes
    through. *)
Lemma build_succeeds todo done tree :
  no_reserved_child (Dict.keys (done ++ todo)) ->
  scalars_under (Dict.keys done) tree ->
  exists tree', fold_left tree_step todo (inr tree) = inr tree'.
Proof.
  revert done tree.
  induction todo as [|[q st] todo IH]; intros done tree Hno Hinv.
  - now exists tree.
  - cbn [fold_left]. rewrite tree_step_put.
    assert (Hq : In q (Dict.keys (done ++ (q, st) :: todo))).
    { unfold Dict.keys. rewrite map_app. apply in_or_app. right. now left. }
    assert (Hdone : forall q1, In q1 (Dict.keys done) ->
                               In q1 (Dict.keys (done ++ (q, st) :: todo))).
    { intros q1 H1. unfold Dict.keys in *. rewrite map_app.
      apply in_or_app. now left. }
    destruct (put_succeeds (PyStr.split "." q) (leaf_of st) tree) as [tree1 Hput].
    { intros pi rho v Hparts Hrho Hat.
      destruct (is_scalar v) eqn:Ev; [|reflexivity]. exfalso.
      destruct (Hinv pi v Hat Ev) as (q1 & s & Hq1 & -> & Hs).
      destruct (Hno q1 q s (Hdone _ Hq1) Hq) as [H1 H2];
        [now exists rho|]. destruct Hs; contradiction. }
    rewrite Hput.
    apply (IH (done ++ [(q, st)]) tree1).
    + now rewrite <- app_assoc.
    + intros pos v Hat Hv.
      destruct (prefix_of_dec (PyStr.split "." q) pos) as [[rho Hrho]|Hnp];
        [subst pos|].
      * rewrite (put_at _ _ _ _ rho (split_nonempty _ _) Hput) in Hat.
        exists q. unfold Dict.keys. rewrite map_app.
        destruct (leaf_scalar_at _ _ _ Hat Hv) as [Hr|Hr]; rewrite Hr.
        -- exists "type". split; [apply in_or_app; right; now left|auto].
        -- exists "occurrences". split; [apply in_or_app; right; now left|auto].
      * pose proof (put_scalar_from _ _ _ _ _ _ Hput Hnp Hat Hv) as Hold.
        destruct (Hinv pos v Hold Hv) as (q1 & s & Hq1 & Hpos & Hs).
        exists q1, s. split; [|auto].
        unfold Dict.keys in *. rewrite map_app. apply in_or_app. now left.
Qed.

(** The information of a leaf stays where it is under the insertions
    that neither replace it nor go through its two entries. *)
Lemma info_kept todo tree tree' parts st :
  fold_left tree_step todo (inr tree) = inr tree' ->
  leaf_info_at parts tree st ->
  (forall q, In q (Dict.keys todo) ->
             ~ prefix_of (PyStr.split "." q) parts /\
             ~ prefix_of (parts ++ ["type"]) (PyStr.split "." q) /\
             ~ prefix_of (parts ++ ["occurrences"]) (PyStr.split "." q)) ->
  leaf_info_at parts tree' st.
Proof.
  revert tree.
  induction todo as [|[q sq] todo IH]; intros tree Hfold Hinfo Hq.
  - simpl in Hfold. now injection Hfold as <-.
  - cbn [fold_left] in Hfold. rewrite tree_step_put in Hfold.
    destruct (tree_put (PyStr.split "." q) (leaf_of sq) tree) as [e|tree1] eqn:Hput.
    { now rewrite fold_tree_step_inl in Hfold. }
    apply (IH tree1); auto.
    + destruct Hinfo as (d & Hat & Ht & Ho).
      destruct (Hq q (or_introl eq_refl)) as (H1 & H2 & H3).
      destruct (put_keeps_dict _ _ _ _ _ _ Hput H1 Hat) as (d' & Hat' & Hk).
      exists d'. split; [assumption|].
      now rewrite (Hk "type" H2), (Hk "occurrences" H3).
    + intros q' Hin. apply Hq. now right.
Qed.

Lemma info_inserted tree tree' p st :
  tree_put (PyStr.split "." p) (leaf_of st) tree = inr tree' ->
  leaf_info_at (PyStr.split "." p) tree' st.
Proof.
  intros Hput. exists [("type", TStr (if PySet.nonempty (html_tags st)
                                       then "html" else "text"));
                       ("occurrences", TInt (count st))].
  pose proof (put_at _ _ _ _ [] (split_nonempty _ _) Hput) as H.
  rewrite app_nil_r in H. rewrite H. repeat split.
Qed.

End BuildFacts.

Lemma build_structure_tree_run fs :
  _build_structure_tree fs = (fs, fold_left tree_step fs (inr [])).
Proof.
  unfold _build_structure_tree.
  destruct (fold_left tree_step fs (inr [])); reflexivity.
Qed.

(** C4, as the code has it.  When no accumulated path continues another
    accumulated path with a segment named [type] or [occurrences], the tree
    is built, and the type classification and the occurrence count of an
    accumulated path are in the mapping at its position, whether the paths
    that continue it were inserted before it or after it, as long as no
    path inserted after it sits at its position or above it. *)
Theorem C4_leaf_info_kept (fs : field_stats) :
  no_reserved_child (Dict.keys fs) ->
  exists tree,
    snd (_build_structure_tree fs) = inr tree /\
    forall before p st after,
      fs = before ++ (p, st) :: after ->
      (forall q, In q (Dict.keys after) ->
                 ~ prefix_of (PyStr.split "." q) (PyStr.split "." p)) ->
      leaf_info_at (PyStr.split "." p) tree st.
Proof.
  intros Hno. rewrite build_structure_tree_run. cbn [snd].
  destruct (BuildFacts.build_succeeds fs [] [] Hno) as [tree Htree].
  { intros [|a pos] v Hat Hv; simpl in Hat; [|discriminate].
    injection Hat as <-. discriminate. }
  exists tree. split; [assumption|].
  intros before p st after -> Habove.
  rewrite fold_left_app in Htree. cbn [fold_left] in Htree.
  destruct (fold_left tree_step before (inr [])) as [e|tree0].
  { cbn [tree_step] in Htree. now rewrite BuildFacts.fold_tree_step_inl in Htree. }
  rewrite TreeFacts.tree_step_put in Htree.
  destruct (tree_put (PyStr.split "." p) (leaf_of st) tree0) as [e|tree1] eqn:Hput.
  { now rewrite BuildFacts.fold_tree_step_inl in Htree. }
  apply (BuildFacts.info_kept after tree1 tree); auto.
  - now apply BuildFacts.info_inserted with (tree := tree0).
  - intros q Hq.
    assert (Hp : In p (Dict.keys (before ++ (p, st) :: after))).
    { unfold Dict.keys. rewrite map_app. apply in_or_app. right. now left. }
    assert (Hq' : In q (Dict.keys (before ++ (p, st) :: after))).
    { unfold Dict.keys in *. rewrite map_app. apply in_or_app. right. now right. }
    split; [now apply Habove|].
    split; intros H; destruct (Hno p q _ Hp Hq' H) as [H1 H2]; congruence.
Qed.

Lemma no_reserved_child_leaf_then_branch :
  no_reserved_child (Dict.keys fs_leaf_then_branch).
Proof.
  intros q1 q2 s H1 H2 [c Hc].
  destruct H1 as [<-|[<-|[]]], H2 as [<-|[<-|[]]];
    vm_compute in Hc; try discriminate.
  injection Hc as <- _. split; discriminate.
Qed.

Lemma C4_witness :
  no_reserved_child (Dict.keys fs_leaf_then_branch) /\
  exists tree,
    snd (_build_structure_tree fs_leaf_then_branch) = inr tree /\
    leaf_info_at (PyStr.split "." "a") tree stats_text_once.
Proof.
  split; [exact no_reserved_child_leaf_then_branch|].
  destruct (C4_leaf_info_kept fs_leaf_then_branch no_reserved_child_leaf_then_branch)
    as [tree [Htree Hinfo]].
  exists tree. split; [exact Htree|].
  apply (Hinfo [] "a" stats_text_once [("a.b", stats_text_once)] eq_refl).
  intros q [<-|[]] [c Hc]. vm_compute in Hc. discriminate.
Defined.

(** C4 fails as stated: after [{"a": "x"}] and [{"a": {"type": "y"}}] the
    paths [a] and [a.type] are both accumulated, and in the tree the
    insertion of [a.type] has replaced the type classification of [a]. *)
Lemma C4_counterexample :
  exists fs r,
    analyze_json_file (fun s => s) toy_parser data_leaf_with_type_child init
    = (fs, inr r) /\
    Dict.keys fs = ["a"; "a.type"] /\
    data_structure r
    = [("a", TDict [("type", TDict [("type", TStr "text"); ("occurrences", TInt 1)]);
                    ("occurrences", TInt 1)])] /\
    ~ leaf_info_at (PyStr.split "." "a") (data_structure r) (entry "a" fs).
Proof.
  eexists. eexists. split; [reflexivity|]. split; [reflexivity|].
  split; [reflexivity|].
  intros (d & Hat & Ht & _). vm_compute in Hat. injection Hat as <-.
  vm_compute in Ht. discriminate.
Qed.

(** * Further properties of the analyzer *)

(** ** Which accumulators exist *)

Lemma mem_keys {V} p (d : list (string * V)) :
  Dict.mem p d = true <-> In p (Dict.keys d).
Proof.
  unfold Dict.mem. destruct (Dict.get p d) eqn:E.
  - split; [intros _|reflexivity].
    destruct (in_dec string_dec p (Dict.keys d)) as [H|H]; [assumption|].
    apply DictFacts.get_None_keys in H. congruence.
  - split; [discriminate|]. intros H.
    apply DictFacts.get_None_keys in E. contradiction.
Qed.

Lemma observe_keys_iff BeautifulSoup fs o k :
  In k (Dict.keys (observe BeautifulSoup fs o)) <-> In k (Dict.keys fs) \/ k = fst o.
Proof.
  unfold observe, apply_at.
  destruct (Dict.get (fst o) fs) eqn:E.
  - rewrite (DictFacts.keys_set_present _ _ _ _ E). split; [auto|].
    intros [H| ->]; [assumption|].
    apply DictFacts.get_In in E. apply in_map_iff. now exists (fst o, s).
  - rewrite (DictFacts.keys_set_missing _ _ _ E), in_app_iff. simpl.
    split; intros [H|H]; auto.
    destruct H as [<-|[]]. auto.
Qed.

Lemma fold_observe_keys_iff BeautifulSoup os fs k :
  In k (Dict.keys (fold_left (observe BeautifulSoup) os fs))
  <-> In k (Dict.keys fs) \/ In k (map fst os).
Proof.
  revert fs. induction os as [|o os IH]; intros fs; simpl; [tauto|].
  rewrite IH, observe_keys_iff. intuition (subst; auto).
Qed.

Lemma at_path_nonempty p os : In p (map fst os) <-> at_path p os <> [].
Proof.
  unfold at_path. induction os as [|o os IH]; simpl; [tauto|].
  destruct (String.eqb (fst o) p) eqn:E; simpl.
  - apply String.eqb_eq in E. split; [discriminate|auto].
  - apply String.eqb_neq in E. rewrite <- IH. split; [|auto].
    intros [H|H]; [contradiction|assumption].
Qed.

Lemma get_entry p (fs : field_stats) st : Dict.get p fs = Some st -> entry p fs = st.
Proof. unfold entry. now intros ->. Qed.

(** ** What every accumulator satisfies *)

Lemma is_html_length s : _is_html s = true -> 3 <= String.length s.
Proof.
  induction s as [|c rest IH]; cbn -[Ascii.eqb]; [discriminate|].
  intros H. apply orb_true_iff in H. destruct H as [H|H].
  - apply andb_true_iff in H. destruct H as [_ H].
    destruct rest as [|d rest']; [discriminate|].
    apply andb_true_iff in H. destruct H as [_ H].
    destruct rest'; [discriminate|]. simpl. lia.
  - specialize (IH H). lia.
Qed.

Lemma add_names_In tags s tag : In tag tags -> In (name tag) (add_names tags s).
Proof.
  revert s. induction tags as [|t ts IH]; intros s; simpl; [tauto|].
  intros [->|H]; [|now apply IH].
  apply PySetFacts.add_names_incl, PySetFacts.add_In.
Qed.

Lemma add_codes_nonempty sections s :
  add_codes sections s <> [] -> s <> [] \/ sections <> [].
Proof.
  destruct sections as [|x xs]; [now left|]. intros _. right. discriminate.
Qed.

Lemma find_names_In names soup :
  Bs4.truthy (Bs4.find names soup) = true ->
  exists tag, In tag (Bs4.find_all soup) /\ In (name tag) names.
Proof.
  unfold Bs4.find, Bs4.find_all.
  destruct (find _ (descendants soup)) as [tag|] eqn:E; [|discriminate].
  intros _. apply find_some in E. destruct E as [Hin Hname].
  exists tag. split; [assumption|].
  apply existsb_exists in Hname. destruct Hname as [n [Hn E]].
  apply String.eqb_eq in E. now subst.
Qed.

Lemma observe_well_formed BeautifulSoup o st :
  st = default_stats \/ well_formed st ->
  well_formed (observe_stats BeautifulSoup o st).
Proof.
  intros Hst.
  assert (Hc : List.length (sample_values st) <= count st).
  { destruct Hst as [->|(_ & [_ H] & _)]; [simpl; lia|assumption]. }
  assert (Ht : has_tables st = true -> In "table" (html_tags st)).
  { destruct Hst as [->|(_ & _ & H & _)]; [discriminate|assumption]. }
  assert (Hl : has_lists st = true -> In "ul" (html_tags st) \/ In "ol" (html_tags st)).
  { destruct Hst as [->|(_ & _ & _ & H & _)]; [discriminate|assumption]. }
  assert (Hs : section_codes st <> [] -> html_tags st <> []).
  { destruct Hst as [->|(_ & _ & _ & _ & H & _)]; [intros H; now destruct H|assumption]. }
  assert (Hm : html_tags st <> [] -> 3 <= max_length st).
  { destruct Hst as [->|(_ & _ & _ & _ & _ & H)]; [intros H; now destruct H|assumption]. }
  clear Hst.
  assert (Hplain : forall extra : list string,
             List.length extra = 1 ->
             well_formed (set_sample_values (fun l => l ++ extra)
                                            (set_count (fun n => n + 1) st))).
  { intros extra He. unfold well_formed. cbn -[Nat.max].
    rewrite length_app, He. repeat split; auto; lia. }
  destruct o as [n|s|s]; cbn -[Nat.max Nat.ltb].
  - now apply Hplain.
  - destruct (_is_html s) eqn:Eh.
    + rewrite merge_html_eq. unfold well_formed. cbn -[Nat.max Nat.ltb].
      pose proof (is_html_length _ Eh) as Hlen.
      repeat split; try lia.
      * destruct (_ <? 1)%nat eqn:E; [rewrite length_app; simpl; lia|].
        apply Nat.ltb_ge in E. lia.
      * destruct (_ <? 1)%nat eqn:E; [|lia].
        apply Nat.ltb_lt in E. rewrite length_app. simpl. lia.
      * intros H. apply orb_true_iff in H. destruct H as [H|H].
        -- destruct (find_names_In _ _ H) as (tag & Hin & [Hn|[]]).
           rewrite Hn. now apply add_names_In.
        -- apply PySetFacts.add_names_incl. auto.
      * intros H. apply orb_true_iff in H. destruct H as [H|H].
        -- destruct (find_names_In _ _ H) as (tag & Hin & [Hn|[Hn|[]]]);
             [left|right]; rewrite Hn; now apply add_names_In.
        -- destruct (Hl H); [left|right]; now apply PySetFacts.add_names_incl.
      * intros H. apply add_codes_nonempty in H. destruct H as [H|H].
        -- specialize (Hs H). intros Hnil.
           destruct (html_tags st) as [|x xs] eqn:Ex; [congruence|].
           assert (Hx : In x (add_names (Bs4.find_all (BeautifulSoup s)) (x :: xs))).
           { apply PySetFacts.add_names_incl. now left. }
           rewrite Hnil in Hx. destruct Hx.
        -- unfold Bs4.find_all_attr in H.
           destruct (filter _ (descendants (BeautifulSoup s))) as [|tag ?] eqn:Ef;
             [congruence|].
           assert (Hin : In tag (descendants (BeautifulSoup s))).
           { eapply proj1. apply filter_In. rewrite Ef. now left. }
           intros Hnil.
           pose proof (add_names_In _ (html_tags st) _ Hin) as Hx.
           unfold Bs4.find_all in Hnil. rewrite Hnil in Hx. destruct Hx.
    + destruct (_ <? 3)%nat eqn:E.
      * unfold well_formed. cbn -[Nat.max].
        rewrite length_app. simpl.
        repeat split; auto; try lia. intros H. specialize (Hm H). lia.
      * apply Nat.ltb_ge in E.
        unfold well_formed. cbn -[Nat.max] in *.
        repeat split; auto; try lia. intros H. specialize (Hm H). lia.
  - destruct (_ <? 3)%nat eqn:E.
    + now apply Hplain.
    + apply Nat.ltb_ge in E.
      unfold well_formed. cbn -[Nat.max] in *.
      repeat split; auto; lia.
Qed.

Lemma observe_all_well_formed BeautifulSoup os st :
  os <> [] -> st = default_stats \/ well_formed st ->
  well_formed (observe_all BeautifulSoup os st).
Proof.
  revert st. unfold observe_all.
  induction os as [|o os IH]; intros st Hne Hst; [congruence|].
  simpl. destruct os as [|o' os'].
  - now apply observe_well_formed.
  - apply IH; [discriminate|]. right. now apply observe_well_formed.
Qed.

Lemma walk_well_formed BeautifulSoup drugs p st :
  Dict.get p (walk BeautifulSoup drugs init) = Some st -> well_formed st.
Proof.
  intros Hget.
  assert (Hin : In p (map fst (observations_of drugs))).
  { assert (Hk : In p (Dict.keys (walk BeautifulSoup drugs init))).
    { apply mem_keys. unfold Dict.mem. now rewrite Hget. }
    rewrite walk_observations in Hk.
    apply fold_observe_keys_iff in Hk. destruct Hk as [[]|Hk]. exact Hk. }
  apply get_entry in Hget.
  rewrite walk_observations, entry_fold in Hget. subst st.
  apply observe_all_well_formed; [now apply at_path_nonempty|now left].
Qed.

(** X1. [_is_html] holds of a text exactly when the text contains a ['<'],
    then one or more characters other than ['>'], then a ['>']; such a text
    has at least 3 characters. *)
Theorem X1_is_html_is_the_pattern (text : string) :
  (_is_html text = true <-> markup_like text) /\
  (_is_html text = true -> 3 <= String.length text).
Proof. split; [apply is_html_markup_like|apply is_html_length]. Qed.

(** X2. After any documents walked from an empty collection, the count of
    the accumulator at a path is the number of values the walk met at that
    path. *)
Theorem X2_count_is_number_of_observations (BeautifulSoup : string -> Soup)
        (drugs : list json) (p : string) :
  count (entry p (walk BeautifulSoup drugs init))
  = List.length (at_path p (observations_of drugs)).
Proof.
  rewrite walk_observations, entry_fold, observe_all_count. reflexivity.
Qed.

(** X3. A walk creates an accumulator exactly for the paths at which it
    meets a value and removes none: the paths of the collection afterwards
    are those it had, in their order, followed by new ones; a path is among
    them exactly when it was there before or a value was met at it; and
    paths stay distinct. *)
Theorem X3_accumulators_are_the_observed_paths (BeautifulSoup : string -> Soup)
        (drugs : list json) (fs : field_stats) :
  (forall k,
      In k (Dict.keys (walk BeautifulSoup drugs fs))
      <-> In k (Dict.keys fs) \/ In k (map fst (observations_of drugs)))
  /\ (exists new, Dict.keys (walk BeautifulSoup drugs fs) = Dict.keys fs ++ new)
  /\ (NoDup (Dict.keys fs) -> NoDup (Dict.keys (walk BeautifulSoup drugs fs))).
Proof.
  split; [|split].
  - intros k. rewrite walk_observations. apply fold_observe_keys_iff.
  - rewrite walk_observations. generalize (observations_of drugs) as os.
    intros os. revert fs. induction os as [|o os IH]; intros fs; simpl.
    + exists []. now rewrite app_nil_r.
    + destruct (IH (observe BeautifulSoup fs o)) as [new Hnew].
      rewrite Hnew. unfold observe, apply_at.
      destruct (Dict.get (fst o) fs) eqn:E.
      * rewrite (DictFacts.keys_set_present _ _ _ _ E). now exists new.
      * rewrite (DictFacts.keys_set_missing _ _ _ E), <- app_assoc.
        now eexists.
  - apply walk_keys_NoDup.
Qed.

(** X4. Every accumulator that a walk from an empty collection leaves was
    met at least once, holds at least one sample, and holds no more samples
    than its count. *)
Theorem X4_every_accumulator_has_a_sample (BeautifulSoup : string -> Soup)
        (drugs : list json) (p : string) (st : stats) :
  Dict.get p (walk BeautifulSoup drugs init) = Some st ->
  1 <= count st /\
  1 <= List.length (sample_values st) /\
  List.length (sample_values st) <= count st.
Proof.
  intros H. apply walk_well_formed in H.
  destruct H as (H1 & [H2 H3] & _). auto.
Qed.

Lemma X4_witness :
  Dict.get "items" (walk toy_parser [doc_items] init)
  = Some {| count := 1; sample_values := ["[Array with 2 items]"]; html_tags := [];
            max_length := 0; has_tables := false; has_lists := false;
            section_codes := [] |} /\
  1 <= 1 /\ 1 <= 1 /\ 1 <= 1.
Proof.
  split; [reflexivity|].
  apply (X4_every_accumulator_has_a_sample toy_parser [doc_items] "items" _ eq_refl).
Defined.

(** X5. In every accumulator that a walk from an empty collection leaves,
    the markup findings agree: [has_tables] comes with the tag [table],
    [has_lists] with the tag [ul] or [ol], a section code with at least one
    tag, and a tag with a maximum length of at least 3. *)
Theorem X5_markup_findings_agree (BeautifulSoup : string -> Soup)
        (drugs : list json) (p : string) (st : stats) :
  Dict.get p (walk BeautifulSoup drugs init) = Some st ->
  (has_tables st = true -> In "table" (html_tags st)) /\
  (has_lists st = true -> In "ul" (html_tags st) \/ In "ol" (html_tags st)) /\
  (section_codes st <> [] -> html_tags st <> []) /\
  (html_tags st <> [] -> 3 <= max_length st).
Proof.
  intros H. apply walk_well_formed in H.
  destruct H as (_ & _ & H1 & H2 & H3 & H4). auto.
Qed.

(** [{"t": "<table><tr><td>1</td></tr></table>"}] *)
Lemma X5_witness :
  exists st,
    Dict.get "t" (walk toy_parser
                    [JObj [("t", JStr "<table><tr><td>1</td></tr></table>")]] init)
    = Some st /\
    has_tables st = true /\
    In "table" (html_tags st).
Proof.
  eexists. split; [reflexivity|]. split; [reflexivity|].
  apply (X5_markup_findings_agree toy_parser
           [JObj [("t", JStr "<table><tr><td>1</td></tr></table>")]] "t" _ eq_refl).
  reflexivity.
Defined.

(** ** Samples are first come, first kept *)

Lemma observe_samples_app BeautifulSoup o st :
  exists more,
    sample_values (observe_stats BeautifulSoup o st) = sample_values st ++ more.
Proof.
  destruct o as [n|s|s]; cbn -[Nat.ltb].
  - eexists. reflexivity.
  - destruct (_is_html s).
    + rewrite merge_html_eq. cbn -[Nat.ltb].
      destruct (_ <? 1)%nat; [eexists; reflexivity|].
      exists []. now rewrite app_nil_r.
    + destruct (_ <? 3)%nat; [eexists; reflexivity|].
      exists []. now rewrite app_nil_r.
  - destruct (_ <? 3)%nat; [eexists; reflexivity|].
    exists []. now rewrite app_nil_r.
Qed.

Lemma observe_all_samples_app BeautifulSoup os st :
  exists more,
    sample_values (observe_all BeautifulSoup os st) = sample_values st ++ more.
Proof.
  revert st. unfold observe_all.
  induction os as [|o os IH]; intros st; simpl.
  - exists []. now rewrite app_nil_r.
  - destruct (IH (observe_stats BeautifulSoup o st)) as [more2 H2].
    destruct (observe_samples_app BeautifulSoup o st) as [more1 H1].
    exists (more1 ++ more2). now rewrite H2, H1, app_assoc.
Qed.

(** X6. Samples are kept in the order they were stored and never dropped:
    after any further walk the sample list of a path is its former list
    followed by the new samples.  Hence, once an accumulator holds 3
    samples, the samples the report shows for it no longer change. *)
Theorem X6_samples_first_come (BeautifulSoup : string -> Soup)
        (set_iter : PySet.t -> list string)
        (drugs : list json) (fs : field_stats) (p : string) :
  (exists more,
      sample_values (entry p (walk BeautifulSoup drugs fs))
      = sample_values (entry p fs) ++ more)
  /\ (3 <= List.length (sample_values (entry p fs)) ->
      samples (field_info_of set_iter (entry p (walk BeautifulSoup drugs fs)))
      = samples (field_info_of set_iter (entry p fs))).
Proof.
  rewrite walk_observations, entry_fold.
  destruct (observe_all_samples_app BeautifulSoup
              (at_path p (observations_of drugs)) (entry p fs)) as [more H].
  split; [now exists more|].
  intros H3. cbn [samples field_info_of]. rewrite H, firstn_app.
  replace (3 - List.length (sample_values (entry p fs))) with 0 by lia.
  simpl. now rewrite app_nil_r.
Qed.

(** ** The lists of the report *)

Lemma report_fold_lists set_iter fs r0 :
  html_fields (fold_left (report_step set_iter) fs r0)
  = html_fields r0
      ++ map fst (filter (fun kv => PySet.nonempty (html_tags (snd kv))) fs)
  /\ key_sections (fold_left (report_step set_iter) fs r0)
     = key_sections r0 ++ filter is_key_section (Dict.keys fs).
Proof.
  revert r0. induction fs as [|[k st] fs IH]; intros r0; cbn [fold_left].
  - simpl. now rewrite !app_nil_r.
  - destruct (IH (report_step set_iter r0 (k, st))) as [-> ->].
    cbn [report_step html_fields key_sections is_html field_info_of
         filter map fst snd Dict.keys].
    fold (is_key_section k).
    destruct (PySet.nonempty (html_tags st)), (is_key_section k);
      cbn [map fst]; rewrite <- ?app_assoc; auto.
Qed.

Lemma report_fields_html set_iter fs :
  map fst (filter (fun kv => is_html (snd kv)) (report_fields set_iter fs))
  = map fst (filter (fun kv => PySet.nonempty (html_tags (snd kv))) fs).
Proof.
  induction fs as [|[k st] fs IH]; simpl; [reflexivity|].
  destruct (PySet.nonempty (html_tags st)); simpl; now rewrite IH.
Qed.

(** X7. In a report built from a collection with distinct paths,
    [total_fields] is the number of analysed fields, the fields come in the
    order of the collection, [html_fields] lists exactly the fields whose
    [is_html] is true and [key_sections] exactly the fields whose
    lower-cased path contains a keyword, both in that order; building the
    report leaves the collection as it was. *)
Theorem X7_report_lists (set_iter : PySet.t -> list string)
        (fs : field_stats) (r : report) :
  NoDup (Dict.keys fs) ->
  snd (_generate_report set_iter fs) = inr r ->
  total_fields r = List.length (field_analysis r) /\
  Dict.keys (field_analysis r) = Dict.keys fs /\
  html_fields r = map fst (filter (fun kv => is_html (snd kv)) (field_analysis r)) /\
  key_sections r = filter is_key_section (Dict.keys fs) /\
  fst (_generate_report set_iter fs) = fs.
Proof.
  intros Hnd Hr.
  destruct (generate_report_fields set_iter fs r Hnd Hr) as [Hfa Htot].
  rewrite generate_report_run in Hr. cbn [snd] in Hr.
  destruct (fold_left tree_step fs (inr [])) as [e|tree]; [discriminate|].
  injection Hr as Hr.
  rewrite Htot, Hfa. unfold report_fields at 1 2. rewrite length_map.
  split; [reflexivity|].
  split; [unfold Dict.keys; rewrite map_map; reflexivity|].
  rewrite report_fields_html, <- Hr.
  destruct (report_fold_lists set_iter fs
              {| total_fields := List.length fs; field_analysis := [];
                 html_fields := []; key_sections := []; data_structure := tree |})
    as [-> ->].
  repeat split. now rewrite generate_report_run.
Qed.

Lemma X7_witness :
  NoDup (Dict.keys (walk toy_parser [doc_warnings] init)) /\
  exists r,
    snd (_generate_report (fun s => s) (walk toy_parser [doc_warnings] init)) = inr r /\
    html_fields r = map fst (filter (fun kv => is_html (snd kv)) (field_analysis r)) /\
    html_fields r = ["warnings"].
Proof.
  assert (Hnd : NoDup (Dict.keys (walk toy_parser [doc_warnings] init))).
  { apply walk_keys_NoDup. constructor. }
  split; [exact Hnd|].
  eexists. split; [reflexivity|]. split; [|reflexivity].
  apply (X7_report_lists (fun s => s) (walk toy_parser [doc_warnings] init) _
           Hnd eq_refl).
Defined.

(** ** Which errors the analysis raises *)




(** X9. When the top-level value is an object or an array of objects and no
    accumulated path continues another accumulated path with a segment
    named [type] or [occurrences], the analysis returns a report, whose
    fields are the paths of the collection. *)
Theorem X9_report_is_built (set_iter : PySet.t -> list string)
        (BeautifulSoup : string -> Soup) (data : json) :
  valid_top data = true ->
  no_reserved_child (Dict.keys (walk BeautifulSoup (drugs_of data) init)) ->
  exists r,
    analyze_json_file set_iter BeautifulSoup data init
    = (walk BeautifulSoup (drugs_of data) init, inr r) /\
    Dict.keys (field_analysis r)
    = Dict.keys (walk BeautifulSoup (drugs_of data) init).
Proof.
  intros Hv Hno. rewrite valid_top_drugs in Hv.
  rewrite analyze_json_file_run, Hv, generate_report_run.
  set (fs := walk BeautifulSoup (drugs_of data) init) in *.
  destruct (BuildFacts.build_succeeds fs [] [] Hno) as [tree Htree].
  { intros [|a pos] v Hat Hs; simpl in Hat; [|discriminate].
    injection Hat as <-. discriminate. }
  rewrite Htree. eexists. split; [reflexivity|].
  rewrite report_fold_fields.
  - cbn [field_analysis app]. unfold report_fields, Dict.keys.
    now rewrite map_map.
  - cbn [field_analysis Dict.keys map app]. apply walk_keys_NoDup. constructor.
Qed.

Lemma no_reserved_child_items :
  no_reserved_child (Dict.keys (walk toy_parser (drugs_of doc_items) init)).
Proof.
  intros q1 q2 s H1 H2 [c Hc].
  destruct H1 as [<-|[<-|[]]], H2 as [<-|[<-|[]]];
    vm_compute in Hc; discriminate.
Qed.

Lemma X9_witness :
  valid_top doc_items = true /\
  no_reserved_child (Dict.keys (walk toy_parser (drugs_of doc_items) init)) /\
  exists r,
    analyze_json_file (fun s => s) toy_parser doc_items init
    = (walk toy_parser (drugs_of doc_items) init, inr r) /\
    Dict.keys (field_analysis r)
    = Dict.keys (walk toy_parser (drugs_of doc_items) init).
Proof.
  split; [reflexivity|]. split; [exact no_reserved_child_items|].
  apply (X9_report_is_built (fun s => s) toy_parser doc_items eq_refl
           no_reserved_child_items).
Defined.

(** ** Analysing in several calls *)

Lemma walked_all drugs : forallb is_dict drugs = true -> walked drugs = drugs.
Proof.
  induction drugs as [|d rest IH]; [reflexivity|].
  destruct d; simpl; try discriminate. intros H. now rewrite IH.
Qed.

Lemma walked_app l1 l2 :
  forallb is_dict l1 = true -> walked (l1 ++ l2) = l1 ++ walked l2.
Proof.
  induction l1 as [|d rest IH]; [reflexivity|].
  destruct d; simpl; try discriminate. intros H. now rewrite IH.
Qed.

Lemma walk_app BeautifulSoup l1 l2 fs :
  forallb is_dict l1 = true ->
  walk BeautifulSoup (l1 ++ l2) fs = walk BeautifulSoup l2 (walk BeautifulSoup l1 fs).
Proof.
  intros H. rewrite !walk_observations. unfold observations_of.
  rewrite (walked_app _ _ H), (walked_all _ H), flat_map_app.
  apply fold_left_app.
Qed.

(** X10. Analysing a second file with the same analyzer, after a first file
    whose top-level value was an object or an array of objects, gives the
    collection and the report that analysing the documents of both files in
    one array gives: counts and samples add up across calls. *)
Theorem X10_calls_accumulate (set_iter : PySet.t -> list string)
        (BeautifulSoup : string -> Soup) (data1 data2 : json) (fs : field_stats) :
  valid_top data1 = true ->
  analyze_json_file set_iter BeautifulSoup data2
    (fst (analyze_json_file set_iter BeautifulSoup data1 fs))
  = analyze_json_file set_iter BeautifulSoup
      (JArr (drugs_of data1 ++ drugs_of data2)) fs.
Proof.
  intros Hv. rewrite valid_top_drugs in Hv.
  assert (H1 : fst (analyze_json_file set_iter BeautifulSoup data1 fs)
               = walk BeautifulSoup (drugs_of data1) fs).
  { now rewrite analyze_json_file_run, Hv, generate_report_run. }
  rewrite H1, !analyze_json_file_run. cbn [drugs_of].
  rewrite forallb_app, Hv, (walk_app _ _ _ _ Hv). reflexivity.
Qed.

Lemma X10_witness :
  valid_top doc_empty_array = true /\
  analyze_json_file (fun s => s) toy_parser doc_items
    (fst (analyze_json_file (fun s => s) toy_parser doc_empty_array init))
  = analyze_json_file (fun s => s) toy_parser
      (JArr (drugs_of doc_empty_array ++ drugs_of doc_items)) init.
Proof.
  split; [reflexivity|].
  apply (X10_calls_accumulate (fun s => s) toy_parser doc_empty_array doc_items
           init eq_refl).
Defined.

(** ** Inserting into the structure tree and looking up *)

Lemma put_frame parts leaf current current' pos :
  tree_put parts leaf current = inr current' ->
  ~ prefix_of parts pos -> ~ prefix_of pos parts ->
  tree_at pos (TDict current') = tree_at pos (TDict current).
Proof.
  revert current current' pos.
  induction parts as [|p rest IH]; intros current current' pos Hput Hnp Hnq.
  - exfalso. apply Hnp, TreeFacts.prefix_of_nil.
  - destruct pos as [|a pos'].
    { exfalso. apply Hnq, TreeFacts.prefix_of_nil. }
    assert (Hside : forall c', current' = Dict.set p c' current -> a <> p ->
                               tree_at (a :: pos') (TDict current')
                               = tree_at (a :: pos') (TDict current)).
    { intros c' -> Ha. cbn [tree_at]. now rewrite DictFacts.get_set_other. }
    destruct rest as [|q rest].
    + injection Hput as Hput. symmetry in Hput.
      apply (Hside leaf); auto.
      intros ->. apply Hnp. apply TreeFacts.prefix_of_cons.
      split; [reflexivity|apply TreeFacts.prefix_of_nil].
    + rewrite TreeFacts.tree_put_cons in Hput.
      destruct (string_dec a p) as [->|Ha].
      * assert (Hnp' : ~ prefix_of (q :: rest) pos').
        { intros H. apply Hnp. now apply TreeFacts.prefix_of_cons. }
        assert (Hnq' : ~ prefix_of pos' (q :: rest)).
        { intros H. apply Hnq. now apply TreeFacts.prefix_of_cons. }
        destruct (Dict.get p current) as [c|] eqn:Ec.
        -- destruct c as [child|s|n]; try discriminate.
           destruct (tree_put (q :: rest) leaf child) as [e|child'] eqn:E;
             [discriminate|].
           injection Hput as <-. cbn [tree_at].
           rewrite DictFacts.get_set_same, Ec. now apply (IH child).
        -- destruct (tree_put (q :: rest) leaf []) as [e|child'] eqn:E;
             [discriminate|].
           injection Hput as <-. cbn [tree_at].
           rewrite DictFacts.get_set_same, Ec.
           rewrite (IH [] child' pos' E Hnp' Hnq').
           destruct pos' as [|b pos'']; [|reflexivity].
           exfalso. apply Hnq', TreeFacts.prefix_of_nil.
      * destruct (match Dict.get p current with Some c => c | None => TDict [] end)
          as [child|s|n]; try discriminate.
        destruct (tree_put (q :: rest) leaf child) as [e|child'] eqn:E;
          [discriminate|].
        injection Hput as Hput. symmetry in Hput.
        now apply (Hside (TDict child')).
Qed.

(** X11. When the insertion of a field into the structure tree does not
    raise, the leaf is found at the position given by the parts of its
    path, and every position that is neither at or below that position nor
    above it holds what it held before. *)
Theorem X11_tree_insert_then_lookup (parts : list string) (leaf : tval)
        (current current' : list (string * tval)) :
  parts <> [] ->
  tree_insert (removelast parts) (last parts "") leaf current = inr current' ->
  tree_at parts (TDict current') = Some leaf /\
  forall pos,
    ~ prefix_of parts pos -> ~ prefix_of pos parts ->
    tree_at pos (TDict current') = tree_at pos (TDict current).
Proof.
  intros Hne Hins. rewrite TreeFacts.tree_insert_put in Hins by assumption.
  split.
  - pose proof (TreeFacts.put_at parts leaf current current' [] Hne Hins) as H.
    now rewrite app_nil_r in H.
  - intros pos. now apply put_frame with (leaf := leaf).
Qed.

Lemma X11_witness :
  ["a"; "b"] <> [] /\
  tree_insert (removelast ["a"; "b"]) (last ["a"; "b"] "") (TInt 7) []
  = inr [("a", TDict [("b", TInt 7)])] /\
  tree_at ["a"; "b"] (TDict [("a", TDict [("b", TInt 7)])]) = Some (TInt 7).
Proof.
  split; [discriminate|]. split; [reflexivity|].
  apply (X11_tree_insert_then_lookup ["a"; "b"] (TInt 7) []
           [("a", TDict [("b", TInt 7)])]); [discriminate|reflexivity].
Defined.

(** X12. The accumulator at a path depends only on the values met at that
    path, in their order: two sequences of documents that hold the same
    values at the path leave the same accumulator there, whatever else they
    hold. *)
Theorem X12_paths_are_independent (BeautifulSoup : string -> Soup)
        (drugs1 drugs2 : list json) (fs : field_stats) (p : string) :
  at_path p (observations_of drugs1) = at_path p (observations_of drugs2) ->
  entry p (walk BeautifulSoup drugs1 fs) = entry p (walk BeautifulSoup drugs2 fs).
Proof. intros H. now rewrite !walk_observations, !entry_fold, H. Qed.

Lemma X12_witness :
  at_path "name" (observations_of [doc_warnings])
  = at_path "name" (observations_of [JObj [("name", JStr "Aspirin")]; doc_items]) /\
  entry "name" (walk toy_parser [doc_warnings] init)
  = entry "name" (walk toy_parser [JObj [("name", JStr "Aspirin")]; doc_items] init).
Proof.
  split; [reflexivity|].
  apply (X12_paths_are_independent toy_parser [doc_warnings]
           [JObj [("name", JStr "Aspirin")]; doc_items] init "name" eq_refl).
Defined.

(** ** Arrays and nested objects *)

Lemma observations_items_app l1 l2 prefix :
  observations (JObj (l1 ++ l2)) prefix
  = observations (JObj l1) prefix ++ observations (JObj l2) prefix.
Proof.
  induction l1 as [|[k v] l1 IH]; [reflexivity|].
  rewrite <- app_comm_cons, !observations_cons, IH. apply app_assoc.
Qed.

(** X13. Of an array value only the length and the first element count:
    replacing the elements after the first by as many other values, in a
    document walked at any prefix from any collection, changes neither the
    collection left nor the outcome. *)
Theorem X13_array_tail_is_not_visited (BeautifulSoup : string -> Soup)
        (before after : list (string * json)) (key : string)
        (first : json) (rest rest' : list json)
        (prefix : string) (fs : field_stats) :
  List.length rest = List.length rest' ->
  _analyze_drug BeautifulSoup
    (JObj (before ++ (key, JArr (first :: rest)) :: after)) prefix fs
  = _analyze_drug BeautifulSoup
      (JObj (before ++ (key, JArr (first :: rest')) :: after)) prefix fs.
Proof.
  intros Hlen. rewrite !analyze_drug_spec, !observations_items_app.
  rewrite !observations_cons. unfold observe_item. cbn [List.length].
  now rewrite Hlen.
Qed.

Lemma X13_witness :
  List.length [JObj [("x", JInt 2)]] = List.length [JStr "<p>Risk</p><b>x</b>"] /\
  _analyze_drug toy_parser
    (JObj ([] ++ ("items", JArr (JObj [("x", JInt 1)] :: [JObj [("x", JInt 2)]])) :: []))
    "" init
  = _analyze_drug toy_parser
      (JObj ([] ++ ("items", JArr (JObj [("x", JInt 1)] :: [JStr "<p>Risk</p><b>x</b>"]))
                :: []))
      "" init.
Proof.
  split; [reflexivity|].
  apply (X13_array_tail_is_not_visited toy_parser [] [] "items"
           (JObj [("x", JInt 1)]) [JObj [("x", JInt 2)]]
           [JStr "<p>Risk</p><b>x</b>"] "" init eq_refl).
Defined.

Lemma prefix_empty b : String.prefix "" b = true.
Proof. destruct b; reflexivity. Qed.

Lemma prefix_append a b : String.prefix a (a +++ b) = true.
Proof.
  induction a as [|c a IH]; simpl; [apply prefix_empty|].
  destruct (ascii_dec c c); [assumption|congruence].
Qed.

Lemma prefix_trans a b c :
  String.prefix a b = true -> String.prefix b c = true -> String.prefix a c = true.
Proof.
  revert b c. induction a as [|x a IH]; intros b c; [intros; apply prefix_empty|].
  destruct b as [|y b]; [discriminate|]. simpl.
  destruct (ascii_dec x y) as [->|]; [|discriminate].
  destruct c as [|z c]; simpl; [discriminate|].
  destruct (ascii_dec y z); [|discriminate]. apply IH.
Qed.

Lemma prefix_field_key prefix key :
  String.prefix prefix (if String.eqb prefix "" then key else prefix +++ key) = true.
Proof.
  destruct (String.eqb prefix "") eqn:E.
  - apply String.eqb_eq in E. subst. apply prefix_empty.
  - apply prefix_append.
Qed.

Lemma observations_prefix_nested drug :
  (forall prefix,
      Forall (fun o => String.prefix prefix (fst o) = true) (observations drug prefix))
  /\ match drug with
     | JArr l =>
         Forall (fun x => forall prefix,
                     Forall (fun o => String.prefix prefix (fst o) = true)
                            (observations x prefix)) l
     | _ => True
     end.
Proof.
  induction drug using json_nested_ind; split; auto;
    try (intros prefix; constructor).
  - eapply Forall_impl; [|eassumption]. now intros v [Hv _].
  - induction items as [|[key value] rest IHrest]; intros prefix.
    + constructor.
    + inversion H as [|? ? [Hv Hl] Hrest]; subst.
      rewrite observations_cons. apply Forall_app. split; [|now apply IHrest].
      assert (Hweak : forall suffix (os : list (string * obs)),
                 Forall (fun o => String.prefix
                                    ((if String.eqb prefix "" then key
                                      else prefix +++ key) +++ suffix) (fst o) = true) os ->
                 Forall (fun o => String.prefix prefix (fst o) = true) os).
      { intros suffix os. apply Forall_impl. intros o Ho.
        eapply prefix_trans; [|exact Ho].
        eapply prefix_trans; [apply prefix_field_key|apply prefix_append]. }
      unfold observe_item. cbn [snd] in *.
      destruct value; cbv beta iota zeta;
        try (constructor; [apply prefix_field_key|constructor]).
      * constructor; [apply prefix_field_key|].
        destruct l as [|first l']; [constructor|].
        inversion Hl as [|? ? Hfirst _]; subst.
        destruct first; try constructor.
        apply (Hweak "[0]."), Hfirst.
      * apply (Hweak "."), Hv.
Qed.

(** X14. Every accumulator that a call of the walker creates lies under the
    prefix it was called with: a path of the collection afterwards was
    there before, or starts with the prefix.  So a nested object under the
    key [k] only ever touches paths that start with [k.]. *)
Theorem X14_walker_stays_under_its_prefix (BeautifulSoup : string -> Soup)
        (drug : json) (prefix : string) (fs : field_stats) (k : string) :
  In k (Dict.keys (fst (_analyze_drug BeautifulSoup drug prefix fs))) ->
  In k (Dict.keys fs) \/ String.prefix prefix k = true.
Proof.
  rewrite analyze_drug_spec. cbn [fst]. intros H.
  apply fold_observe_keys_iff in H. destruct H as [H|H]; [now left|right].
  apply in_map_iff in H. destruct H as [o [<- Ho]].
  pose proof (proj1 (observations_prefix_nested drug) prefix) as Hall.
  rewrite Forall_forall in Hall. now apply Hall.
Qed.

Lemma X14_witness :
  In "items[0].x" (Dict.keys (fst (_analyze_drug toy_parser
                                     (JObj [("x", JInt 1)]) "items[0]." init))) /\
  (In "items[0].x" (Dict.keys init) \/ String.prefix "items[0]." "items[0].x" = true).
Proof.
  assert (H : In "items[0].x"
                 (Dict.keys (fst (_analyze_drug toy_parser
                                    (JObj [("x", JInt 1)]) "items[0]." init)))).
  { left. reflexivity. }
  split; [exact H|].
  apply (X14_walker_stays_under_its_prefix toy_parser (JObj [("x", JInt 1)])
           "items[0]." init "items[0].x" H).
Defined.

(** ** The tabular summary *)

(** X15. The field summary of a report built by an analysis from an empty
    collection has one row per accumulated path, in the order of the
    collection; the sample of a row is the first sample stored for its
    field (the empty default is never used), its other columns are the
    maximum length, the flags and the markup classification of the
    accumulator, and its tag column is empty when the field is not markup. *)
Theorem X15_summary_rows (set_iter : PySet.t -> list string)
        (BeautifulSoup : string -> Soup) (data : json) (r : report) :
  snd (analyze_json_file set_iter BeautifulSoup data init) = inr r ->
  map row_field_path (export_field_summary r)
  = Dict.keys (walk BeautifulSoup (drugs_of data) init)
  /\ forall row,
      In row (export_field_summary r) ->
      exists st first later,
        Dict.get (row_field_path row) (walk BeautifulSoup (drugs_of data) init)
        = Some st /\
        sample_values st = first :: later /\
        row_sample row = first /\
        row_max_length row = max_length st /\
        row_has_tables row = has_tables st /\
        row_has_lists row = has_lists st /\
        row_is_html row = PySet.nonempty (html_tags st) /\
        (row_is_html row = false -> row_html_tags row = "").
Proof.
  rewrite analyze_json_file_run.
  destruct (forallb is_dict (drugs_of data)); [|discriminate].
  set (fs := walk BeautifulSoup (drugs_of data) init).
  assert (Hnd : NoDup (Dict.keys fs)) by (apply walk_keys_NoDup; constructor).
  intros Hr. apply generate_report_fields in Hr; [|assumption].
  destruct Hr as [Hfa _]. unfold export_field_summary. rewrite Hfa.
  unfold report_fields. rewrite !map_map. split; [reflexivity|].
  intros row Hrow. apply in_map_iff in Hrow.
  destruct Hrow as [[k st] [<- Hin]]. cbn [fst snd row_field_path].
  pose proof (DictFacts.In_get _ _ _ Hnd Hin) as Hget.
  pose proof (walk_well_formed _ _ _ _ Hget) as (_ & [Hs _] & _).
  destruct (sample_values st) as [|first later] eqn:Es; [simpl in Hs; lia|].
  exists st, first, later. split; [assumption|]. split; [exact Es|].
  cbn. rewrite Es. repeat split.
  intros Hno. now rewrite Hno.
Qed.

Lemma X15_witness :
  exists r,
    snd (analyze_json_file (fun s => s) toy_parser doc_warnings init) = inr r /\
    map row_field_path (export_field_summary r)
    = Dict.keys (walk toy_parser (drugs_of doc_warnings) init) /\
    map row_sample (export_field_summary r) = ["[HTML] Risk..."; "Aspirin"].
Proof.
  eexists. split; [reflexivity|]. split; [|reflexivity].
  apply (X15_summary_rows (fun s => s) toy_parser doc_warnings _ eq_refl).
Defined.

(** X16. Once a field is classified as markup it stays so: when the report
    view of the accumulator at a path has [is_html] true, it still has
    after any further documents are walked, whatever they hold at that
    path. *)
Theorem X16_markup_classification_is_stable (BeautifulSoup : string -> Soup)
        (set_iter : PySet.t -> list string)
        (drugs : list json) (fs : field_stats) (p : string) :
  is_html (field_info_of set_iter (entry p fs)) = true ->
  is_html (field_info_of set_iter (entry p (walk BeautifulSoup drugs fs))) = true.
Proof.
  cbn [is_html field_info_of]. rewrite walk_observations, entry_fold.
  destruct (observe_all_grows BeautifulSoup
              (at_path p (observations_of drugs)) (entry p fs)) as (_ & _ & H & _).
  destruct (html_tags (entry p fs)) as [|x xs]; [discriminate|]. intros _.
  destruct (html_tags (observe_all BeautifulSoup _ (entry p fs))) as [|y ys];
    [|reflexivity].
  destruct (H x (or_introl eq_refl)).
Qed.

Lemma X16_witness :
  is_html (field_info_of (fun s => s)
             (entry "warnings" (walk toy_parser [doc_warnings] init))) = true /\
  is_html (field_info_of (fun s => s)
             (entry "warnings"
                (walk toy_parser [JObj [("warnings", JStr "plain text")]]
                      (walk toy_parser [doc_warnings] init)))) = true.
Proof.
  split; [reflexivity|].
  apply (X16_markup_classification_is_stable toy_parser (fun s => s)
           [JObj [("warnings", JStr "plain text")]]
           (walk toy_parser [doc_warnings] init) "warnings" eq_refl).
Defined.

(** ** Looking up the fields the report lists *)

(** X17. In a report built from a collection with distinct paths, every
    path listed in [key_sections] or in [html_fields] has an entry in
    [field_analysis] (the lookups of [print_summary] cannot miss), and the
    entry of a path listed in [html_fields] has [is_html] true. *)
Theorem X17_listed_fields_are_analysed (set_iter : PySet.t -> list string)
        (fs : field_stats) (r : report) (field : string) :
  NoDup (Dict.keys fs) ->
  snd (_generate_report set_iter fs) = inr r ->
  In field (key_sections r) \/ In field (html_fields r) ->
  exists info,
    Dict.get field (field_analysis r) = Some info /\
    (In field (html_fields r) -> is_html info = true).
Proof.
  intros Hnd Hr Hin.
  destruct (generate_report_fields set_iter fs r Hnd Hr) as [Hfa _].
  rewrite generate_report_run in Hr. cbn [snd] in Hr.
  destruct (fold_left tree_step fs (inr [])) as [e|tree]; [discriminate|].
  injection Hr as Hr.
  destruct (report_fold_lists set_iter fs
              {| total_fields := List.length fs; field_analysis := [];
                 html_fields := []; key_sections := []; data_structure := tree |})
    as [Hh Hk].
  rewrite Hr in Hh, Hk. cbn [html_fields key_sections app] in Hh, Hk.
  assert (Hkey : In field (Dict.keys fs)).
  { destruct Hin as [Hin|Hin].
    - rewrite Hk in Hin. now apply filter_In in Hin.
    - rewrite Hh in Hin. apply in_map_iff in Hin.
      destruct Hin as [[k st] [<- Hin]]. apply filter_In in Hin.
      apply in_map_iff. exists (k, st). now split. }
  destruct (Dict.get field fs) as [st|] eqn:Eg;
    [|apply DictFacts.get_None_keys in Eg; contradiction].
  exists (field_info_of set_iter st).
  rewrite Hfa, get_report_fields, Eg. split; [reflexivity|].
  rewrite Hh. intros Hhtml. apply in_map_iff in Hhtml.
  destruct Hhtml as [[k st'] [Hk' Hin']]. simpl in Hk'. subst k.
  apply filter_In in Hin'. destruct Hin' as [Hin' Hne].
  rewrite (DictFacts.In_get _ _ _ Hnd Hin') in Eg. injection Eg as <-.
  exact Hne.
Qed.

Lemma X17_witness :
  NoDup (Dict.keys (walk toy_parser [doc_warnings] init)) /\
  exists r,
    snd (_generate_report (fun s => s) (walk toy_parser [doc_warnings] init)) = inr r /\
    (In "warnings" (key_sections r) \/ In "warnings" (html_fields r)) /\
    exists info,
      Dict.get "warnings" (field_analysis r) = Some info /\
      (In "warnings" (html_fields r) -> is_html info = true).
Proof.
  assert (Hnd : NoDup (Dict.keys (walk toy_parser [doc_warnings] init))).
  { apply walk_keys_NoDup. constructor. }
  split; [exact Hnd|].
  eexists. split; [reflexivity|].
  assert (Hin : In "warnings" ["warnings"] \/ In "warnings" ["warnings"]).
  { left. left. reflexivity. }
  split; [exact Hin|].
  apply (X17_listed_fields_are_analysed (fun s => s)
           (walk toy_parser [doc_warnings] init) _ "warnings" Hnd eq_refl Hin).
Defined.

(** ** The tree of a collection without nesting *)

Lemma split_no_dot s : PyStr.mem_char "." s = false -> PyStr.split "." s = [s].
Proof.
  induction s as [|c s IH]; cbn -[Ascii.eqb]; [reflexivity|].
  intros H. apply orb_false_iff in H. destruct H as [Hc Hs].
  rewrite (Ascii.eqb_sym c "."), Hc, (IH Hs). reflexivity.
Qed.

Lemma build_flat fs tree0 :
  NoDup (Dict.keys tree0 ++ Dict.keys fs) ->
  (forall k, In k (Dict.keys fs) -> PyStr.mem_char "." k = false) ->
  fold_left tree_step fs (inr tree0)
  = inr (tree0 ++ map (fun kv => (fst kv, leaf_of (snd kv))) fs).
Proof.
  revert tree0. induction fs as [|[k st] fs IH]; intros tree0 Hnd Hflat.
  - simpl. now rewrite app_nil_r.
  - cbn [fold_left tree_step].
    rewrite (split_no_dot k) by (apply Hflat; now left).
    cbn [removelast last tree_insert].
    assert (Hk : Dict.get k tree0 = None).
    { apply DictFacts.get_None_keys. intros Hin.
      apply NoDup_remove_2 in Hnd. apply Hnd. apply in_or_app. now left. }
    rewrite (set_missing _ _ _ Hk), IH.
    + cbn [map fst snd]. now rewrite <- app_assoc.
    + unfold Dict.keys in *. rewrite map_app. cbn [map fst].
      rewrite <- app_assoc. exact Hnd.
    + intros k' Hk'. apply Hflat. now right.
Qed.

Lemma print_leaves mark repr_dict indent (fs : field_stats) :
  _print_tree mark repr_dict
    (TDict (map (fun kv => (fst kv, leaf_of (snd kv))) fs)) indent
  = map (fun kv =>
           spaces indent +++ mark +++ " " +++ fst kv +++ " ("
             +++ (if PySet.nonempty (html_tags (snd kv)) then "html" else "text")
             +++ ")") fs.
Proof.
  induction fs as [|[k st] fs IH]; [reflexivity|].
  cbn [map fst snd]. rewrite <- IH. reflexivity.
Qed.

(** X18. For a collection with distinct paths none of which contains a
    ['.'], building the report never raises, the structure tree holds one
    leaf per field in the order of the collection, and [_print_tree] prints
    for it one line per field: the indent, the mark, the path and, in
    parentheses, [html] or [text] as the field's [is_html] says. *)
Theorem X18_flat_tree_is_printed_field_by_field (mark : string)
        (repr_dict : list (string * tval) -> string)
        (set_iter : PySet.t -> list string) (fs : field_stats) (indent : nat) :
  NoDup (Dict.keys fs) ->
  (forall k, In k (Dict.keys fs) -> PyStr.mem_char "." k = false) ->
  exists r,
    snd (_generate_report set_iter fs) = inr r /\
    data_structure r = map (fun kv => (fst kv, leaf_of (snd kv))) fs /\
    _print_tree mark repr_dict (TDict (data_structure r)) indent
    = map (fun fi =>
             spaces indent +++ mark +++ " " +++ fst fi +++ " ("
               +++ (if is_html (snd fi) then "html" else "text") +++ ")")
          (field_analysis r).
Proof.
  intros Hnd Hflat.
  rewrite generate_report_run. cbn [snd].
  rewrite (build_flat fs [] Hnd Hflat). cbn [app].
  eexists. split; [reflexivity|].
  destruct (report_fold_rest set_iter fs
              {| total_fields := List.length fs; field_analysis := [];
                 html_fields := []; key_sections := [];
                 data_structure := map (fun kv => (fst kv, leaf_of (snd kv))) fs |})
    as [_ Hds].
  rewrite Hds. cbn [data_structure]. split; [reflexivity|].
  rewrite report_fold_fields by exact Hnd.
  cbn [field_analysis app]. unfold report_fields. rewrite map_map.
  apply print_leaves.
Qed.

Lemma X18_witness :
  NoDup (Dict.keys (walk toy_parser [doc_warnings] init)) /\
  (forall k, In k (Dict.keys (walk toy_parser [doc_warnings] init)) ->
             PyStr.mem_char "." k = false) /\
  exists r,
    snd (_generate_report (fun s => s) (walk toy_parser [doc_warnings] init)) = inr r /\
    _print_tree "+--" (fun _ => "") (TDict (data_structure r)) 2
    = ["  +-- warnings (html)"; "  +-- name (text)"].
Proof.
  assert (Hnd : NoDup (Dict.keys (walk toy_parser [doc_warnings] init))).
  { apply walk_keys_NoDup. constructor. }
  assert (Hflat : forall k, In k (Dict.keys (walk toy_parser [doc_warnings] init)) ->
                            PyStr.mem_char "." k = false).
  { intros k [<-|[<-|[]]]; reflexivity. }
  split; [exact Hnd|]. split; [exact Hflat|].
  destruct (X18_flat_tree_is_printed_field_by_field "+--" (fun _ => "")
              (fun s => s) (walk toy_parser [doc_warnings] init) 2 Hnd Hflat)
    as [r [Hr [_ Hprint]]].
  exists r. split; [exact Hr|].
  rewrite Hprint. vm_compute in Hr. injection Hr as <-. reflexivity.
Defined.

(** ** What the markup components of an accumulator hold *)

Lemma add_In_iff x y s : In x (PySet.add y s) <-> In x s \/ x = y.
Proof.
  unfold PySet.add. destruct (PySet.mem y s) eqn:E.
  - apply PySetFacts.mem_In in E. split; [auto|]. intros [H| ->]; assumption.
  - rewrite in_app_iff. simpl. intuition.
Qed.

Lemma add_names_In_iff x tags s :
  In x (add_names tags s) <-> In x s \/ In x (map name tags).
Proof.
  revert s. induction tags as [|t ts IH]; intros s; simpl; [tauto|].
  rewrite IH, add_In_iff. intuition.
Qed.

Lemma add_codes_In_iff x sections s :
  In x (add_codes sections s)
  <-> In x s \/ exists tag, In tag sections /\
                            Bs4.get "data-sectioncode" tag = Some x.
Proof.
  revert s. unfold add_codes.
  induction sections as [|t ts IH]; intros s; simpl.
  - split; [auto|]. intros [H|[tag [[] _]]]. assumption.
  - rewrite IH. destruct (Bs4.get "data-sectioncode" t) as [code|] eqn:E.
    + rewrite add_In_iff. split.
      * intros [[H|H]|[tag [Hin Hg]]]; auto.
        -- right. exists t. subst. auto.
        -- right. exists tag. auto.
      * intros [H|[tag [[<-|Hin] Hg]]]; auto.
        -- left. right. congruence.
        -- right. exists tag. auto.
    + split.
      * intros [H|[tag [Hin Hg]]]; auto. right. exists tag. auto.
      * intros [H|[tag [[<-|Hin] Hg]]]; auto; [congruence|].
        right. exists tag. auto.
Qed.

Lemma find_truthy_iff names soup :
  Bs4.truthy (Bs4.find names soup) = true
  <-> exists tag, In tag (Bs4.find_all soup) /\ In (name tag) names.
Proof.
  split; [apply find_names_In|].
  intros (tag & Hin & Hname). unfold Bs4.find, Bs4.find_all in *.
  destruct (find _ (descendants soup)) eqn:E; [reflexivity|].
  pose proof (find_none _ _ E _ Hin) as Hnone. simpl in Hnone.
  assert (Ht : existsb (String.eqb (name tag)) names = true).
  { apply existsb_exists. exists (name tag). split; [assumption|apply String.eqb_refl]. }
  congruence.
Qed.

Lemma texts_cons o os :
  texts (o :: os) = match o with ObsText s => [s] | _ => [] end ++ texts os.
Proof. reflexivity. Qed.

Section MarkupComponents.

Variable BeautifulSoup : string -> Soup.

Lemma some_markup_nil found : ~ some_markup BeautifulSoup [] found.
Proof. intros (s & tag & [] & _). Qed.

Lemma some_markup_cons o os found :
  some_markup BeautifulSoup (o :: os) found
  <-> (exists s tag, o = ObsText s /\ _is_html s = true /\
                     In tag (Bs4.find_all (BeautifulSoup s)) /\ found tag)
      \/ some_markup BeautifulSoup os found.
Proof.
  unfold some_markup. rewrite texts_cons. split.
  - intros (s & tag & Hin & Hh & Ht & Hf). apply in_app_iff in Hin.
    destruct Hin as [Hin|Hin].
    + left. destruct o; simpl in Hin; try contradiction.
      destruct Hin as [->|[]]. exists s, tag. auto.
    + right. exists s, tag. auto.
  - intros [(s & tag & -> & Hh & Ht & Hf)|(s & tag & Hin & Hh & Ht & Hf)];
      exists s, tag; repeat split; auto; apply in_app_iff; [left; now left|now right].
Qed.

Lemma observe_tags x o st :
  In x (html_tags (observe_stats BeautifulSoup o st))
  <-> In x (html_tags st) \/ some_markup BeautifulSoup [o] (fun tag => name tag = x).
Proof.
  rewrite some_markup_cons.
  assert (Hno : forall st', html_tags st' = html_tags st ->
                            (forall s, o <> ObsText s \/ _is_html s = false) ->
                            In x (html_tags st')
                            <-> In x (html_tags st)
                                \/ ((exists s tag, o = ObsText s /\ _is_html s = true /\
                                       In tag (Bs4.find_all (BeautifulSoup s)) /\
                                       name tag = x)
                                    \/ some_markup BeautifulSoup [] (fun tag => name tag = x))).
  { intros st' -> Hnot. split; [auto|].
    intros [H|[(s & tag & -> & Hh & _)|H]]; auto.
    - destruct (Hnot s); congruence.
    - now apply some_markup_nil in H. }
  destruct o as [n|s|s]; cbn -[Nat.ltb].
  - apply Hno; [reflexivity|]. intros s. left. discriminate.
  - destruct (_is_html s) eqn:Eh.
    + rewrite merge_html_eq. cbn [html_tags set_max_length set_count].
      rewrite add_names_In_iff, in_map_iff. split.
      * intros [H|[tag [Hn Hin]]]; auto.
        right. left. exists s, tag. auto.
      * intros [H|[(s' & tag & [= <-] & _ & Hin & Hn)|H]]; auto.
        -- right. exists tag. auto.
        -- now apply some_markup_nil in H.
    + apply Hno.
      * now destruct (_ <? 3)%nat.
      * intros s'. destruct (string_dec s s') as [<-|Hne]; [now right|].
        left. congruence.
  - apply Hno; [now destruct (_ <? 3)%nat|]. intros s'. left. discriminate.
Qed.

Lemma observe_all_tags x os st :
  In x (html_tags (observe_all BeautifulSoup os st))
  <-> In x (html_tags st) \/ some_markup BeautifulSoup os (fun tag => name tag = x).
Proof.
  revert st. unfold observe_all.
  induction os as [|o os IH]; intros st; simpl.
  - split; [auto|]. intros [H|H]; [assumption|now apply some_markup_nil in H].
  - rewrite IH, observe_tags, (some_markup_cons o os), (some_markup_cons o []).
    pose proof (some_markup_nil (fun tag => name tag = x)). tauto.
Qed.

End MarkupComponents.

(** X19. After any documents walked from an empty collection, the tag set
    at a path holds exactly the names of the elements that the parser finds
    in the markup-like texts met at that path. *)
Theorem X19_tags_are_the_elements_found (BeautifulSoup : string -> Soup)
        (drugs : list json) (p x : string) :
  In x (html_tags (entry p (walk BeautifulSoup drugs init)))
  <-> exists s tag,
        In s (texts (at_path p (observations_of drugs))) /\
        _is_html s = true /\
        In tag (Bs4.find_all (BeautifulSoup s)) /\
        name tag = x.
Proof.
  rewrite walk_observations, entry_fold, observe_all_tags.
  unfold some_markup. split; [|auto]. intros [[]|H]. exact H.
Qed.

Section MarkupFlags.

Variable BeautifulSoup : string -> Soup.

Lemma some_markup_single o found :
  some_markup BeautifulSoup [o] found
  <-> exists s tag, o = ObsText s /\ _is_html s = true /\
                    In tag (Bs4.find_all (BeautifulSoup s)) /\ found tag.
Proof.
  rewrite some_markup_cons.
  pose proof (some_markup_nil BeautifulSoup found). tauto.
Qed.

Lemma some_markup_step o os found :
  some_markup BeautifulSoup (o :: os) found
  <-> some_markup BeautifulSoup [o] found \/ some_markup BeautifulSoup os found.
Proof.
  rewrite (some_markup_cons _ o os), (some_markup_cons _ o []).
  pose proof (some_markup_nil BeautifulSoup found). tauto.
Qed.

Lemma observe_has_tables o st :
  has_tables (observe_stats BeautifulSoup o st) = true
  <-> has_tables st = true
      \/ some_markup BeautifulSoup [o] (fun tag => name tag = "table").
Proof.
  rewrite some_markup_single.
  destruct o as [n|s|s]; cbn -[Nat.ltb].
  - split; [auto|]. intros [H|(s & tag & [=] & _)]. assumption.
  - destruct (_is_html s) eqn:Eh.
    + rewrite merge_html_eq. cbn [has_tables set_max_length set_count].
      rewrite orb_true_iff, find_truthy_iff. split.
      * intros [(tag & Hin & [Hn|[]])|H]; auto.
        right. exists s, tag. auto.
      * intros [H|(s' & tag & [= <-] & _ & Hin & Hn)]; auto.
        left. exists tag. split; [assumption|]. left. now symmetry.
    + assert (Hsame : has_tables
                        (if (List.length (sample_values st) <? 3)%nat
                         then set_sample_values (fun l => l ++ [text_sample s])
                                (set_max_length (fun m => Nat.max m (String.length s))
                                   (set_count (fun n => n + 1) st))
                         else set_max_length (fun m => Nat.max m (String.length s))
                                (set_count (fun n => n + 1) st))
                      = has_tables st) by now destruct (_ <? 3)%nat.
      rewrite Hsame. split; [auto|].
      intros [H|(s' & tag & [= <-] & Hh & _)]; [assumption|congruence].
  - assert (Hsame : has_tables
                      (if (List.length (sample_values st) <? 3)%nat
                       then set_sample_values (fun l => l ++ [s])
                              (set_count (fun n => n + 1) st)
                       else set_count (fun n => n + 1) st)
                    = has_tables st) by now destruct (_ <? 3)%nat.
    rewrite Hsame. split; [auto|]. intros [H|(s' & tag & [=] & _)]. assumption.
Qed.

Lemma observe_has_lists o st :
  has_lists (observe_stats BeautifulSoup o st) = true
  <-> has_lists st = true
      \/ some_markup BeautifulSoup [o] (fun tag => name tag = "ul" \/ name tag = "ol").
Proof.
  rewrite some_markup_single.
  destruct o as [n|s|s]; cbn -[Nat.ltb].
  - split; [auto|]. intros [H|(s & tag & [=] & _)]. assumption.
  - destruct (_is_html s) eqn:Eh.
    + rewrite merge_html_eq. cbn [has_lists set_max_length set_count].
      rewrite orb_true_iff, find_truthy_iff. split.
      * intros [(tag & Hin & Hn)|H]; auto.
        right. exists s, tag. repeat split; auto.
        destruct Hn as [Hn|[Hn|[]]]; auto.
      * intros [H|(s' & tag & [= <-] & _ & Hin & Hn)]; auto.
        left. exists tag. split; [assumption|].
        destruct Hn as [Hn|Hn]; rewrite Hn; simpl; auto.
    + assert (Hsame : has_lists
                        (if (List.length (sample_values st) <? 3)%nat
                         then set_sample_values (fun l => l ++ [text_sample s])
                                (set_max_length (fun m => Nat.max m (String.length s))
                                   (set_count (fun n => n + 1) st))
                         else set_max_length (fun m => Nat.max m (String.length s))
                                (set_count (fun n => n + 1) st))
                      = has_lists st) by now destruct (_ <? 3)%nat.
      rewrite Hsame. split; [auto|].
      intros [H|(s' & tag & [= <-] & Hh & _)]; [assumption|congruence].
  - assert (Hsame : has_lists
                      (if (List.length (sample_values st) <? 3)%nat
                       then set_sample_values (fun l => l ++ [s])
                              (set_count (fun n => n + 1) st)
                       else set_count (fun n => n + 1) st)
                    = has_lists st) by now destruct (_ <? 3)%nat.
    rewrite Hsame. split; [auto|]. intros [H|(s' & tag & [=] & _)]. assumption.
Qed.

Lemma observe_codes c o st :
  In c (section_codes (observe_stats BeautifulSoup o st))
  <-> In c (section_codes st)
      \/ some_markup BeautifulSoup [o]
           (fun tag => Bs4.get "data-sectioncode" tag = Some c).
Proof.
  rewrite some_markup_single.
  destruct o as [n|s|s]; cbn -[Nat.ltb].
  - split; [auto|]. intros [H|(s & tag & [=] & _)]. assumption.
  - destruct (_is_html s) eqn:Eh.
    + rewrite merge_html_eq. cbn [section_codes set_max_length set_count].
      rewrite add_codes_In_iff. unfold Bs4.find_all_attr, Bs4.find_all. split.
      * intros [H|(tag & Hin & Hg)]; auto.
        apply filter_In in Hin. right. exists s, tag. tauto.
      * intros [H|(s' & tag & [= <-] & _ & Hin & Hg)]; auto.
        right. exists tag. split; [|assumption].
        apply filter_In. split; [assumption|].
        unfold Dict.mem. unfold Bs4.get in Hg. now rewrite Hg.
    + assert (Hsame : section_codes
                        (if (List.length (sample_values st) <? 3)%nat
                         then set_sample_values (fun l => l ++ [text_sample s])
                                (set_max_length (fun m => Nat.max m (String.length s))
                                   (set_count (fun n => n + 1) st))
                         else set_max_length (fun m => Nat.max m (String.length s))
                                (set_count (fun n => n + 1) st))
                      = section_codes st) by now destruct (_ <? 3)%nat.
      rewrite Hsame. split; [auto|].
      intros [H|(s' & tag & [= <-] & Hh & _)]; [assumption|congruence].
  - assert (Hsame : section_codes
                      (if (List.length (sample_values st) <? 3)%nat
                       then set_sample_values (fun l => l ++ [s])
                              (set_count (fun n => n + 1) st)
                       else set_count (fun n => n + 1) st)
                    = section_codes st) by now destruct (_ <? 3)%nat.
    rewrite Hsame. split; [auto|]. intros [H|(s' & tag & [=] & _)]. assumption.
Qed.

Lemma observe_all_has_tables os st :
  has_tables (observe_all BeautifulSoup os st) = true
  <-> has_tables st = true
      \/ some_markup BeautifulSoup os (fun tag => name tag = "table").
Proof.
  revert st. unfold observe_all.
  induction os as [|o os IH]; intros st; simpl.
  - pose proof (some_markup_nil BeautifulSoup (fun tag => name tag = "table")). tauto.
  - rewrite IH, observe_has_tables, (some_markup_step o os). tauto.
Qed.

Lemma observe_all_has_lists os st :
  has_lists (observe_all BeautifulSoup os st) = true
  <-> has_lists st = true
      \/ some_markup BeautifulSoup os (fun tag => name tag = "ul" \/ name tag = "ol").
Proof.
  revert st. unfold observe_all.
  induction os as [|o os IH]; intros st; simpl.
  - pose proof (some_markup_nil BeautifulSoup
                  (fun tag => name tag = "ul" \/ name tag = "ol")). tauto.
  - rewrite IH, observe_has_lists, (some_markup_step o os). tauto.
Qed.

Lemma observe_all_codes c os st :
  In c (section_codes (observe_all BeautifulSoup os st))
  <-> In c (section_codes st)
      \/ some_markup BeautifulSoup os
           (fun tag => Bs4.get "data-sectioncode" tag = Some c).
Proof.
  revert st. unfold observe_all.
  induction os as [|o os IH]; intros st; simpl.
  - pose proof (some_markup_nil BeautifulSoup
                  (fun tag => Bs4.get "data-sectioncode" tag = Some c)). tauto.
  - rewrite IH, observe_codes, (some_markup_step o os). tauto.
Qed.

End MarkupFlags.

(** X20. After any documents walked from an empty collection, [has_tables]
    at a path is true exactly when the parser finds a [table] element in a
    markup-like text met at that path, and [has_lists] exactly when it
    finds a [ul] or an [ol] element in one. *)
Theorem X20_flags_are_the_elements_found (BeautifulSoup : string -> Soup)
        (drugs : list json) (p : string) :
  (has_tables (entry p (walk BeautifulSoup drugs init)) = true
   <-> some_markup BeautifulSoup (at_path p (observations_of drugs))
         (fun tag => name tag = "table"))
  /\ (has_lists (entry p (walk BeautifulSoup drugs init)) = true
      <-> some_markup BeautifulSoup (at_path p (observations_of drugs))
            (fun tag => name tag = "ul" \/ name tag = "ol")).
Proof.
  rewrite walk_observations, entry_fold, observe_all_has_tables, observe_all_has_lists.
  split; (split; [|auto]); intros [H|H]; auto; discriminate.
Qed.

(** X21. After any documents walked from an empty collection, the
    section-code set at a path holds exactly the values of the
    [data-sectioncode] attribute of the elements that the parser finds in
    the markup-like texts met at that path. *)
Theorem X21_section_codes_are_the_attributes_found (BeautifulSoup : string -> Soup)
        (drugs : list json) (p c : string) :
  In c (section_codes (entry p (walk BeautifulSoup drugs init)))
  <-> some_markup BeautifulSoup (at_path p (observations_of drugs))
        (fun tag => Bs4.get "data-sectioncode" tag = Some c).
Proof.
  rewrite walk_observations, entry_fold, observe_all_codes.
  split; [|auto]. intros [[]|H]. exact H.
Qed.

(** ** How many fields the report counts *)

(** X22. The report of an analysis from an empty collection counts in
    [total_fields] the distinct paths at which the walk met a value. *)
Theorem X22_total_fields_counts_distinct_paths (set_iter : PySet.t -> list string)
        (BeautifulSoup : string -> Soup) (data : json) (r : report) :
  snd (analyze_json_file set_iter BeautifulSoup data init) = inr r ->
  total_fields r
  = List.length (nodup string_dec (map fst (observations_of (drugs_of data)))).
Proof.
  rewrite analyze_json_file_run.
  destruct (forallb is_dict (drugs_of data)); [|discriminate].
  set (fs := walk BeautifulSoup (drugs_of data) init).
  assert (Hnd : NoDup (Dict.keys fs)) by (apply walk_keys_NoDup; constructor).
  intros Hr. apply generate_report_fields in Hr; [|assumption].
  destruct Hr as [_ ->].
  replace (List.length fs) with (List.length (Dict.keys fs))
    by (unfold Dict.keys; apply length_map).
  apply Permutation_length, NoDup_Permutation; [assumption|apply NoDup_nodup|].
  intros k. rewrite nodup_In. unfold fs.
  rewrite walk_observations, fold_observe_keys_iff. simpl. tauto.
Qed.

Lemma X22_witness :
  exists r,
    snd (analyze_json_file (fun s => s) toy_parser data_four_arrays init) = inr r /\
    total_fields r = 1 /\
    List.length (nodup string_dec
                   (map fst (observations_of (drugs_of data_four_arrays)))) = 1.
Proof.
  eexists. split; [reflexivity|]. split; [reflexivity|].
  symmetry.
  apply (X22_total_fields_counts_distinct_paths (fun s => s) toy_parser
           data_four_arrays _ eq_refl).
Defined.
